(** * XianFire charging station: leases, billing and relay control

    A shallow embedding of
      - [src/models/transactionModel.js]        (class [TransactionModel]),
      - [src/controllers/firebaseController.js] ([startChargingSession],
        [stopChargingSession], the history endpoint, [addPoints],
        [getStudentByRFID]),
      - the GPIO helper with the mock fallback  ([turnOnSocket],
        [turnOffSocket], the SIGINT hook),
    followed by the properties of the specification that concern them and
    by further properties of the code.

    Conventions of the embedding.
      - Firestore is a document store: the [students] collection is a finite
        map keyed by RFID, the [transactions] collection is the list of the
        documents in creation order, the n-th created document having the
        identifier n (the store never deletes a transaction).
      - An [async] function is a tree of store operations ([Prog]); every
        [await] of a store call is a node, so that the same definition can be
        run to completion or interleaved with another request.
      - Clock reads ([Date.now()], [Timestamp.now()]) are answered by an
        oracle [clk]: the n-th read of an execution returns [clk n]
        milliseconds.
      - Numbers sent by clients and stored in documents are integers (well
        inside the range where JavaScript doubles are exact), and the clock
        stays within the range of Firestore timestamps, so that
        [Timestamp.now()] never throws. A [Date] computed from a request is
        converted on write and may fall outside that range: the store then
        rejects the write. *)

From Stdlib Require Import ZArith Bool Lia.
From stdpp Require Import base option list sorting gmap strings.

Local Open Scope Z_scope.

(** ** Firestore timestamps *)

Record Timestamp := { seconds : Z; nanoseconds : Z }.

(** [Timestamp.fromMillis], which is what [Timestamp.now()] and the
    conversion of a JavaScript [Date] on write both go through. *)
Definition Timestamp_fromMillis (ms : Z) : Timestamp :=
  {| seconds := ms / 1000; nanoseconds := (ms mod 1000) * 1000000 |}.

Definition Timestamp_toMillis (t : Timestamp) : Z :=
  seconds t * 1000 + nanoseconds t / 1000000.

(** The seconds that the [Timestamp] constructor accepts (years 1 to 9999);
    outside them it throws "Timestamp seconds out of range". *)
Definition timestamp_in_range (t : Timestamp) : Prop :=
  -62135596800 <= seconds t < 253402300800.

#[global] Instance timestamp_in_range_dec t : Decision (timestamp_in_range t).
Proof. unfold timestamp_in_range. apply _. Defined.

(** ** Documents *)

Inductive Status := InProgress | Completed | Cancelled.

#[global] Instance Status_eq_dec : EqDecision Status.
Proof. solve_decision. Defined.

(** The string a status is stored as. *)
Definition Status_to_string (s : Status) : string :=
  match s with
  | InProgress => "in-progress"
  | Completed => "completed"
  | Cancelled => "cancelled"
  end.

Definition TxId := nat.

Module Student.
(** [points] and [lastUsed] may be absent or null: [None]. *)
Record t := mk {
  name : string;
  email : string;
  points : option Z;
  lastUsed : option Timestamp
}.
End Student.

Module Transaction.
Record t := mk {
  rfid : string;
  studentName : string;
  email : string;
  pointsUsed : Z;
  socketType : string;
  socketNumber : Z;
  startTime : Timestamp;
  expectedEndTime : option Timestamp;
  actualEndTime : option Timestamp;
  status : Status;
  remainingPoints : Z;
  duration : option Z;
  createdAt : Timestamp;
  updatedAt : Timestamp;
  (* written only by a refunding cancellation *)
  pointsRefunded : option Z;
  actualPointsUsed : option Z
}.
End Transaction.

(** A Session that [addDoc] can serialize: its [expectedEndTime], a [Date]
    until the write, converts to a timestamp within range (a [Date] too far
    away to be a valid date is refused as well). *)
Definition storable (d : Transaction.t) : Prop :=
  match Transaction.expectedEndTime d with
  | Some t => timestamp_in_range t
  | None => True
  end.

#[global] Instance storable_dec d : Decision (storable d).
Proof. unfold storable. destruct (Transaction.expectedEndTime d); apply _. Defined.

(** [x || 0] on a number that may be missing. *)
Definition or0 (x : option Z) : Z :=
  match x with
  | Some n => n
  | None => 0
  end.

(** ** The store and its operations *)

Record World := mkWorld {
  students : gmap string Student.t;
  transactions : list Transaction.t;
  ticks : nat                      (* clock reads made so far *)
}.

Definition tick (w : World) : World :=
  mkWorld (students w) (transactions w) (S (ticks w)).

Inductive Op : Type -> Type :=
| getDoc_student (rfid : string) : Op (option Student.t)
| updateDoc_student (rfid : string) (fields : Student.t -> Student.t) : Op unit
| addDoc_transaction (data : Transaction.t) : Op TxId
| getDoc_transaction (id : TxId) : Op (option Transaction.t)
| updateDoc_transaction (id : TxId) (fields : Transaction.t -> Transaction.t) : Op unit
  (* query(transactions, where rfid == r, where status == "in-progress") *)
| getDocs_active (rfid : string) : Op (list (TxId * Transaction.t)).

Definition is_active (r : string) (t : Transaction.t) : Prop :=
  Transaction.rfid t = r /\ Transaction.status t = InProgress.

#[global] Instance is_active_dec r t : Decision (is_active r t).
Proof. unfold is_active. apply _. Defined.

Definition query_active (r : string) (txs : list Transaction.t)
  : list (TxId * Transaction.t) :=
  filter (fun d => is_active r (snd d)) (imap (fun i t => (i, t)) txs).

(** A rejected promise carries the message of its error. [updateDoc] rejects
    when the document does not exist, [addDoc] when the data cannot be
    serialized; the other calls always resolve. *)
Definition exec_op {X} (op : Op X) (w : World) : (string + X) * World :=
  match op in Op X return (string + X) * World with
  | getDoc_student r => (inr (students w !! r), w)
  | updateDoc_student r f =>
      match students w !! r with
      | Some s => (inr tt, mkWorld (<[r := f s]> (students w)) (transactions w) (ticks w))
      | None => (inl "No document to update", w)
      end
  | addDoc_transaction d =>
      if decide (storable d)
      then (inr (length (transactions w)),
            mkWorld (students w) (transactions w ++ [d]) (ticks w))
      else (inl "Timestamp seconds out of range", w)
  | getDoc_transaction i => (inr (transactions w !! i), w)
  | updateDoc_transaction i f =>
      match transactions w !! i with
      | Some t => (inr tt, mkWorld (students w) (<[i := f t]> (transactions w)) (ticks w))
      | None => (inl "No document to update", w)
      end
  | getDocs_active r => (inr (query_active r (transactions w)), w)
  end.

(** ** Asynchronous programs *)

Inductive Prog (A : Type) : Type :=
| Ret (a : A)
| Throw (message : string)
| DateNow (k : Z -> Prog A)
| Await {X : Type} (op : Op X) (k : string + X -> Prog A).

Arguments Ret {A} a.
Arguments Throw {A} message.
Arguments DateNow {A} k.
Arguments Await {A X} op k.

Fixpoint bind {A B} (m : Prog A) (f : A -> Prog B) : Prog B :=
  match m with
  | Ret a => f a
  | Throw e => Throw e
  | DateNow k => DateNow (fun t => bind (k t) f)
  | Await op k => Await op (fun r => bind (k r) f)
  end.

(** [try { m } catch (err) { h err.message }] *)
Fixpoint catch {A} (m : Prog A) (h : string -> Prog A) : Prog A :=
  match m with
  | Ret a => Ret a
  | Throw e => h e
  | DateNow k => DateNow (fun t => catch (k t) h)
  | Await op k => Await op (fun r => catch (k r) h)
  end.

Notation "x <- m ;; k" := (bind m (fun x => k))
  (at level 100, m at next level, right associativity).
Notation "m ;;; k" := (bind m (fun _ => k))
  (at level 100, right associativity).

(** [await op]: a rejection is thrown at the await. *)
Definition await {X} (op : Op X) : Prog X :=
  Await op (fun r => match r with inl e => Throw e | inr x => Ret x end).

Definition Timestamp_now : Prog Timestamp :=
  DateNow (fun ms => Ret (Timestamp_fromMillis ms)).

Section Semantics.
(** The clock oracle: the n-th read returns [clk n] milliseconds. *)
Variable clk : nat -> Z.

(** A request handled alone, from its first statement to its last. *)
Fixpoint run {A} (m : Prog A) (w : World) : (string + A) * World :=
  match m with
  | Ret a => (inr a, w)
  | Throw e => (inl e, w)
  | DateNow k => run (k (clk (ticks w))) (tick w)
  | Await op k => let '(r, w') := exec_op op w in run (k r) w'
  end.

(** One turn of the event loop for a request: the synchronous code up to
    the next store call, and that call. *)
Fixpoint resume {A} (m : Prog A) (w : World) : Prog A * World :=
  match m with
  | DateNow k => resume (k (clk (ticks w))) (tick w)
  | Await op k => let '(r, w') := exec_op op w in (k r, w')
  | _ => (m, w)
  end.

(** Requests in flight together: [sched] names, turn after turn, the
    request that the event loop resumes. *)
Fixpoint interleave {A} (sched : list nat) (pool : list (Prog A)) (w : World)
  : list (Prog A) * World :=
  match sched with
  | [] => (pool, w)
  | i :: sched' =>
      match pool !! i with
      | Some m => let '(m', w') := resume m w in
                  interleave sched' (<[i := m']> pool) w'
      | None => interleave sched' pool w
      end
  end.
End Semantics.

(** ** [TransactionModel] (src/models/transactionModel.js) *)

Module TransactionData.
(** The argument of [createTransaction]; [startTime], [expectedEndTime]
    (a [Date], in milliseconds) and [status] may be left out. *)
Record t := mk {
  rfid : string;
  studentName : string;
  email : string;
  pointsToSpend : Z;
  socketType : string;
  socketNumber : Z;
  startTime : option Timestamp;
  expectedEndTime : option Z;
  status : option Status
}.
End TransactionData.

Definition set_points_lastUsed (p : Z) (t : Timestamp) (s : Student.t) : Student.t :=
  Student.mk (Student.name s) (Student.email s) (Some p) (Some t).

Definition set_points (p : Z) (s : Student.t) : Student.t :=
  Student.mk (Student.name s) (Student.email s) (Some p) (Student.lastUsed s).

Definition createTransaction (transactionData : TransactionData.t) : Prog TxId :=
  let rfid := TransactionData.rfid transactionData in
  let pointsToSpend := TransactionData.pointsToSpend transactionData in
  let status := default InProgress (TransactionData.status transactionData) in
  catch (
    studentDoc <- await (getDoc_student rfid) ;;
    match studentDoc with
    | None => Throw "Student not found"
    | Some studentData =>
        let currentPoints := or0 (Student.points studentData) in
        if currentPoints <? pointsToSpend then Throw "Insufficient points" else
        let remainingPoints := currentPoints - pointsToSpend in
        startTime <- match TransactionData.startTime transactionData with
                     | Some t => Ret t
                     | None => Timestamp_now
                     end ;;
        createdAt <- Timestamp_now ;;
        updatedAt <- Timestamp_now ;;
        let transaction :=
          Transaction.mk rfid
            (TransactionData.studentName transactionData)
            (TransactionData.email transactionData)
            pointsToSpend
            (TransactionData.socketType transactionData)
            (TransactionData.socketNumber transactionData)
            startTime
            (Timestamp_fromMillis <$> TransactionData.expectedEndTime transactionData)
            None
            status
            remainingPoints
            None
            createdAt
            updatedAt
            None None in
        transactionRef <- await (addDoc_transaction transaction) ;;
        lastUsed <- Timestamp_now ;;
        await (updateDoc_student rfid (set_points_lastUsed remainingPoints lastUsed)) ;;;
        Ret transactionRef
    end)
  (fun error => Throw error).

(** [Math.ceil(a / b)] for integers [a] and [b > 0]: the quotient of two
    integers of the size of a duration is either an integer, which the
    double division returns exactly, or at least [1 / b] away from one, so
    that the ceiling taken on the double is the ceiling of the exact
    quotient. *)
Definition ceil_div (a b : Z) : Z := - ((- a) / b).

(** Lines 115-118 of [completeTransaction]. *)
Definition usedPoints (pointsUsed durationSeconds : Z) : Z :=
  let expectedDuration := pointsUsed * 120 in
  let usedDuration := Z.min durationSeconds expectedDuration in
  ceil_div usedDuration 120.

Definition refundPoints (pointsUsed durationSeconds : Z) : Z :=
  pointsUsed - usedPoints pointsUsed durationSeconds.

(** The [updates] object; the last three keys are present only after a
    refund. *)
Record Updates := mkUpdates {
  u_status : Status;
  u_actualEndTime : Timestamp;
  u_duration : Z;
  u_updatedAt : Timestamp;
  u_pointsRefunded : option Z;
  u_actualPointsUsed : option Z;
  u_remainingPoints : option Z
}.

Definition with_refund (refund used remaining : Z) (u : Updates) : Updates :=
  mkUpdates (u_status u) (u_actualEndTime u) (u_duration u) (u_updatedAt u)
            (Some refund) (Some used) (Some remaining).

(** [{ ...transactionData, ...updates }], also what [updateDoc] leaves in
    the document. *)
Definition apply_updates (u : Updates) (t : Transaction.t) : Transaction.t :=
  Transaction.mk
    (Transaction.rfid t) (Transaction.studentName t) (Transaction.email t)
    (Transaction.pointsUsed t) (Transaction.socketType t)
    (Transaction.socketNumber t) (Transaction.startTime t)
    (Transaction.expectedEndTime t)
    (Some (u_actualEndTime u))
    (u_status u)
    (default (Transaction.remainingPoints t) (u_remainingPoints u))
    (Some (u_duration u))
    (Transaction.createdAt t)
    (u_updatedAt u)
    (match u_pointsRefunded u with Some r => Some r | None => Transaction.pointsRefunded t end)
    (match u_actualPointsUsed u with Some r => Some r | None => Transaction.actualPointsUsed t end).

Definition completeTransaction (transactionId : TxId) (status : Status)
  : Prog (TxId * Transaction.t) :=
  catch (
    transactionDoc <- await (getDoc_transaction transactionId) ;;
    match transactionDoc with
    | None => Throw "Transaction not found"
    | Some transactionData =>
        actualEndTime <- Timestamp_now ;;
        let startTimeSeconds := seconds (Transaction.startTime transactionData) in
        let endTimeSeconds := seconds actualEndTime in
        let durationSeconds := endTimeSeconds - startTimeSeconds in
        updatedAt <- Timestamp_now ;;
        let updates :=
          mkUpdates status actualEndTime durationSeconds updatedAt None None None in
        updates <-
          (if bool_decide (status = Cancelled /\
                           Transaction.status transactionData = InProgress) then
             let pointsUsed := Transaction.pointsUsed transactionData in
             let usedPoints := usedPoints pointsUsed durationSeconds in
             let refundPoints := refundPoints pointsUsed durationSeconds in
             if 0 <? refundPoints then
               let rfid := Transaction.rfid transactionData in
               studentDoc <- await (getDoc_student rfid) ;;
               match studentDoc with
               | Some studentData =>
                   let currentPoints := or0 (Student.points studentData) in
                   await (updateDoc_student rfid
                            (set_points (currentPoints + refundPoints))) ;;;
                   Ret (with_refund refundPoints usedPoints
                          (currentPoints + refundPoints) updates)
               | None => Ret updates
               end
             else Ret updates
           else Ret updates) ;;
        await (updateDoc_transaction transactionId (apply_updates updates)) ;;;
        Ret (transactionId, apply_updates updates transactionData)
    end)
  (fun error => Throw error).

Definition createdAt_seconds (d : TxId * Transaction.t) : Z :=
  seconds (Transaction.createdAt (snd d)).

Definition getActiveTransaction (rfid : string)
  : Prog (option (TxId * Transaction.t)) :=
  catch (
    docs <- await (getDocs_active rfid) ;;
    match docs with
    | [] => Ret None
    | first :: _ =>
        let latestDoc :=
          fold_left (fun latestDoc doc =>
                       if createdAt_seconds latestDoc <? createdAt_seconds doc
                       then doc else latestDoc)
                    docs first in
        Ret (Some latestDoc)
    end)
  (fun error => Throw error).

(** ** The controller (src/controllers/firebaseController.js) *)

Module StartBody.
(** [req.body] of the start endpoint; a key that is missing is [None]. *)
Record t := mk {
  rfid : option string;
  pointsToSpend : option Z;
  socketType : option string;
  socketNumber : option Z
}.
End StartBody.

Module StopBody.
Record t := mk {
  transactionId : option TxId;
  status : option string
}.
End StopBody.

(** JavaScript truthiness of a string and of a number that may be missing. *)
Definition truthy_string (x : option string) : bool :=
  match x with
  | Some s => negb (String.eqb s "")
  | None => false
  end.

Definition truthy_number (x : option Z) : bool :=
  match x with
  | Some n => negb (n =? 0)
  | None => false
  end.

Inductive Response :=
| json_error (status : Z) (error : string)
| json_started (transactionId : TxId) (remainingPoints : option Z)
               (expectedDuration : Z)
| json_stopped (transaction : TxId * Transaction.t) (remainingPoints : option Z)
               (finalStatus : Status).

Definition startChargingSession (body : StartBody.t) : Prog Response :=
  catch (
    match StartBody.rfid body, StartBody.pointsToSpend body,
          StartBody.socketType body, StartBody.socketNumber body with
    | Some rfid, Some pointsToSpend, Some socketType, Some socketNumber =>
        if negb (truthy_string (Some rfid)) || negb (truthy_number (Some pointsToSpend))
           || negb (truthy_string (Some socketType))
           || negb (truthy_number (Some socketNumber))
        then Ret (json_error 400 "Missing required fields") else
        studentDoc <- await (getDoc_student rfid) ;;
        match studentDoc with
        | None => Ret (json_error 404 "Student not found")
        | Some studentData =>
            activeTransaction <- getActiveTransaction rfid ;;
            match activeTransaction with
            | Some _ =>
                Ret (json_error 400 "You already have an active charging session")
            | None =>
                let durationSeconds := pointsToSpend * 120 in
                DateNow (fun now =>
                let expectedEndTime := now + durationSeconds * 1000 in
                transactionId <- createTransaction
                  (TransactionData.mk rfid (Student.name studentData)
                     (Student.email studentData) pointsToSpend socketType
                     socketNumber None (Some expectedEndTime) None) ;;
                updatedStudentDoc <- await (getDoc_student rfid) ;;
                match updatedStudentDoc with
                | Some updatedStudentData =>
                    Ret (json_started transactionId
                           (Student.points updatedStudentData) durationSeconds)
                | None =>
                    Throw "Cannot read properties of undefined (reading 'points')"
                end)
            end
        end
    | _, _, _, _ => Ret (json_error 400 "Missing required fields")
    end)
  (fun message => Ret (json_error 500 message)).

Definition finalStatus_of (status : option string) : Status :=
  match status with
  | Some s => if String.eqb s "cancelled" then Cancelled else Completed
  | None => Completed
  end.

Definition stopChargingSession (body : StopBody.t) : Prog Response :=
  catch (
    match StopBody.transactionId body with
    | None => Ret (json_error 400 "Transaction ID is required")
    | Some transactionId =>
        let finalStatus := finalStatus_of (StopBody.status body) in
        updatedTransaction <- completeTransaction transactionId finalStatus ;;
        studentDoc <- await (getDoc_student
                               (Transaction.rfid (snd updatedTransaction))) ;;
        match studentDoc with
        | Some studentData =>
            Ret (json_stopped updatedTransaction (Student.points studentData)
                   finalStatus)
        | None =>
            Throw "Cannot read properties of undefined (reading 'points')"
        end
    end)
  (fun message => Ret (json_error 500 message)).

(** ** Relay control (the GPIO helper with the mock fallback)

    The output driver is the [MockGpio] class of the file, the stand-in the
    module installs whenever the [onoff] package is not available: a handle
    remembers the last value written. [gpioInstances] is the module-level
    registry of handles, keyed by socket number. The calls made on the driver
    are recorded in [driver_log], in the order they are made. *)

Module Gpio.

Record MockGpio := mkMockGpio {
  pin : Z;
  direction : string;
  value : Z
}.

Inductive DriverCall :=
| call_new (pin : Z)
| call_writeSync (pin : Z) (value : Z)
| call_unexport (pin : Z).

#[global] Instance DriverCall_eq_dec : EqDecision DriverCall.
Proof. solve_decision. Defined.

Record State := mkState {
  gpioInstances : gmap Z MockGpio;
  driver_log : list DriverCall
}.

Inductive Error := Invalid_socket_number (socketNumber : Z).

(** [new MockGpio(pin, direction)] *)
Definition new_MockGpio (pin : Z) (direction : string) : MockGpio :=
  mkMockGpio pin direction 0.

Definition writeSync (v : Z) (g : MockGpio) : MockGpio :=
  mkMockGpio (pin g) (direction g) v.

Definition lineMap (socketNumber : Z) : option Z :=
  if socketNumber =? 1 then Some 73
  else if socketNumber =? 2 then Some 70
  else None.

(** [if (!gpioInstances[n]) gpioInstances[n] = new Gpio(gpioNumber, 'out')] *)
Definition ensure_instance (socketNumber gpioNumber : Z) (st : State) : State :=
  match gpioInstances st !! socketNumber with
  | Some _ => st
  | None =>
      mkState (<[socketNumber := new_MockGpio gpioNumber "out"]> (gpioInstances st))
              (driver_log st ++ [call_new gpioNumber])
  end.

(** [gpioInstances[n].writeSync(v)] *)
Definition write_instance (socketNumber v : Z) (st : State) : State :=
  match gpioInstances st !! socketNumber with
  | Some g =>
      mkState (<[socketNumber := writeSync v g]> (gpioInstances st))
              (driver_log st ++ [call_writeSync (pin g) v])
  | None => st
  end.

Definition turnOnSocket (socketNumber : Z) (st : State) : (Error + unit) * State :=
  match lineMap socketNumber with
  | None => (inl (Invalid_socket_number socketNumber), st)
  | Some gpioNumber =>
      (inr tt, write_instance socketNumber 1
                 (ensure_instance socketNumber gpioNumber st))
  end.

Definition turnOffSocket (socketNumber : Z) (st : State) : (Error + unit) * State :=
  match lineMap socketNumber with
  | None => (inl (Invalid_socket_number socketNumber), st)
  | Some gpioNumber =>
      (inr tt, write_instance socketNumber 0
                 (ensure_instance socketNumber gpioNumber st))
  end.

(** The order of the entries of the registry by socket number. *)
Definition key_le (a b : Z * MockGpio) : Prop := fst a <= fst b.

#[global] Instance key_le_dec a b : Decision (key_le a b).
Proof. unfold key_le. apply _. Defined.

(** [Object.entries(gpioInstances)]: the keys are socket numbers, which
    are enumerated in ascending order. *)
Definition entries (m : gmap Z MockGpio) : list (Z * MockGpio) :=
  merge_sort key_le (map_to_list m).

(** The handler of [process.on('SIGINT', ...)], up to [process.exit()]. *)
Definition on_SIGINT (st : State) : State :=
  mkState (writeSync 0 <$> gpioInstances st)
          (driver_log st ++
           flat_map (fun e => [call_writeSync (pin (snd e)) 0;
                               call_unexport (pin (snd e))])
                    (entries (gpioInstances st))).

(** The relay of a socket is on when its handle last wrote 1. *)
Definition relay_on (socketNumber : Z) (st : State) : bool :=
  match gpioInstances st !! socketNumber with
  | Some g => value g =? 1
  | None => false
  end.

(** Number of handles ever constructed on a pin. *)
Definition handles_created (p : Z) (st : State) : nat :=
  length (filter (fun c => c = call_new p) (driver_log st)).

End Gpio.

(** ** The whole station: the store and the relays

    The controller module imports the store, the authentication helpers and
    [TransactionModel]; it does not import the GPIO helper, so a request
    handler runs on the store and leaves the relay state as it is. *)

Record Station := mkStation {
  world : World;
  relays : Gpio.State
}.

Inductive Request :=
| StartLease (body : StartBody.t)
| StopLease (body : StopBody.t).

Definition handler (r : Request) : Prog Response :=
  match r with
  | StartLease body => startChargingSession body
  | StopLease body => stopChargingSession body
  end.

Definition serve (clk : nat -> Z) (r : Request) (st : Station)
  : (string + Response) * Station :=
  let '(res, w') := run clk (handler r) (world st) in
  (res, mkStation w' (relays st)).


(** Requests handled one after the other, each to completion. *)
Fixpoint serve_all (clk : nat -> Z) (rs : list Request) (st : Station)
  : list (string + Response) * Station :=
  match rs with
  | [] => ([], st)
  | r :: rs' =>
      let '(res, st') := serve clk r st in
      let '(ress, st'') := serve_all clk rs' st' in
      (res :: ress, st'')
  end.

(** ** The vocabulary of the specification *)

(** The error kinds, as the responses the controller sends for them. *)
Definition NotFound : Response := json_error 404 "Student not found".
Definition Conflict : Response :=
  json_error 400 "You already have an active charging session".
Definition InsufficientBalance : Response := json_error 500 "Insufficient points".
Definition MalformedRequest : Response := json_error 400 "Missing required fields".

Definition is_failure (r : string + Response) : Prop :=
  match r with
  | inr (json_error _ _) => True
  | inl _ => True
  | _ => False
  end.

(** The balance of a holder: [points || 0] of the account, 0 without one. *)
Definition balance (w : World) (rfid : string) : Z :=
  or0 (students w !! rfid ≫= Student.points).

Definition terminal (t : Transaction.t) : Prop :=
  Transaction.status t <> InProgress.

(** The in-progress Sessions of a holder. *)
Definition active_sessions (rfid : string) (w : World) : list Transaction.t :=
  filter (is_active rfid) (transactions w).

Definition one_active_per_holder (w : World) : Prop :=
  forall rfid, (length (active_sessions rfid w) <= 1)%nat.

(** The states of the store that StartLease and StopLease requests lead to
    from a store without Sessions when they are handled in turn, each to
    completion before the next begins. The states that requests in flight
    together lead to are those of [interleave]. *)
Inductive reachable_in_turn (clk : nat -> Z) : World -> Prop :=
| reachable_init accounts n : reachable_in_turn clk (mkWorld accounts [] n)
| reachable_serve r w : reachable_in_turn clk w ->
    reachable_in_turn clk (snd (run clk (handler r) w)).

(** [Refund] of the BillingCalculator, in the words of the specification. *)
Definition Refund (pointsReserved elapsedSeconds secondsPerPoint : Z) : Z :=
  let expected := pointsReserved * secondsPerPoint in
  let used := Z.min elapsedSeconds expected in
  let usedPoints := ceil_div used secondsPerPoint in
  Z.max 0 (pointsReserved - usedPoints).

(** A start request with every field present and truthy. *)
Definition valid_start (rfid : string) (p : Z) (socketType : string)
    (socketNumber : Z) : Prop :=
  rfid <> "" /\ p <> 0 /\ socketType <> "" /\ socketNumber <> 0.

Definition start_body (rfid : string) (p : Z) (socketType : string)
    (socketNumber : Z) : StartBody.t :=
  StartBody.mk (Some rfid) (Some p) (Some socketType) (Some socketNumber).

(** The [updates] of a stop that refunds nothing. *)
Definition plain_updates (clk : nat -> Z) (status : Status) (w : World)
    (t : Transaction.t) : Updates :=
  let actualEndTime := Timestamp_fromMillis (clk (ticks w)) in
  mkUpdates status actualEndTime
            (seconds actualEndTime - seconds (Transaction.startTime t))
            (Timestamp_fromMillis (clk (S (ticks w)))) None None None.

(** ** Concrete stations used in the examples *)

Definition alice : Student.t := Student.mk "Alice" "alice@example.org" (Some 100) None.

Definition nobody : Student.t := Student.mk "Bob" "bob@example.org" None None.

Definition w_fresh : World :=
  mkWorld {[ "RF01" := alice; "RF02" := nobody ]} [] 0.

(** A clock that advances 250 ms between two reads. *)
Definition clk_250 (n : nat) : Z := 1000000 + 250 * Z.of_nat n.

(** A clock that stands still. *)
Definition clk_frozen (n : nat) : Z := 1000000.

Definition req_start10 : StartBody.t := start_body "RF01" 10 "Universal Charger" 1.

Definition req_start_negative : StartBody.t :=
  start_body "RF01" (-5) "Universal Charger" 1.

(** Alice holds a 10-point lease on socket 1. *)
Definition w_leased : World := snd (run clk_250 (startChargingSession req_start10) w_fresh).

(** ... and has completed it. *)
Definition w_done : World :=
  snd (run clk_250 (stopChargingSession (StopBody.mk (Some 0%nat) (Some "completed")))
         w_leased).

(** A 10-point lease of an account without a [points] field, started at
    second 1000. *)
Definition lease_of_nobody : Transaction.t :=
  Transaction.mk "RF02" "Bob" "bob@example.org" 10 "Own Charger" 2
    (Timestamp_fromMillis 1000000) (Some (Timestamp_fromMillis 2200000)) None
    InProgress 0 None (Timestamp_fromMillis 1000000) (Timestamp_fromMillis 1000000)
    None None.

Definition w_nobody_leased : World :=
  mkWorld {[ "RF01" := alice; "RF02" := nobody ]} [lease_of_nobody] 0.

(** A clock 125 s after the start of [lease_of_nobody]. *)
Definition clk_125s (n : nat) : Z := 1125000.

Definition relays_socket1_on : Gpio.State :=
  snd (Gpio.turnOnSocket 1 (Gpio.mkState ∅ [])).

Definition station_leased : Station := mkStation w_leased relays_socket1_on.

(** The Session that a successful start writes, and the store it leaves:
    [n] is the number of clock reads made before the request. *)
Definition started_session (clk : nat -> Z) (rfid : string) (p : Z)
    (socketType : string) (socketNumber : Z) (sd : Student.t) (w : World)
  : Transaction.t :=
  let n := ticks w in
  Transaction.mk rfid (Student.name sd) (Student.email sd) p socketType socketNumber
    (Timestamp_fromMillis (clk (S n)))
    (Some (Timestamp_fromMillis (clk n + p * 120 * 1000)))
    None InProgress (or0 (Student.points sd) - p) None
    (Timestamp_fromMillis (clk (S (S n))))
    (Timestamp_fromMillis (clk (S (S (S n)))))
    None None.

Definition started_world (clk : nat -> Z) (rfid : string) (p : Z)
    (socketType : string) (socketNumber : Z) (sd : Student.t) (w : World) : World :=
  let n := ticks w in
  mkWorld
    (<[rfid := set_points_lastUsed (or0 (Student.points sd) - p)
                 (Timestamp_fromMillis (clk (S (S (S (S n)))))) sd]> (students w))
    (transactions w ++ [started_session clk rfid p socketType socketNumber sd w])
    (S (S (S (S (S n))))).

(** The expected end that the controller computes for a start of [p]
    points is a timestamp within range. *)
Definition end_in_range (clk : nat -> Z) (w : World) (p : Z) : Prop :=
  timestamp_in_range (Timestamp_fromMillis (clk (ticks w) + p * 120 * 1000)).

(** The store after a start whose Session the store has refused: one clock
    read of the controller and three of [createTransaction], no write. *)
Definition refused_world (w : World) : World :=
  mkWorld (students w) (transactions w) (S (S (S (S (ticks w))))).

(** Whether a stop with [status] credits a refund for the Session [t], and
    what a stop writes: [w] is the store before the request. *)
Definition refunds (clk : nat -> Z) (status : Status) (w : World)
    (t : Transaction.t) : bool :=
  bool_decide (status = Cancelled /\ Transaction.status t = InProgress)
  && (0 <? refundPoints (Transaction.pointsUsed t)
             (u_duration (plain_updates clk status w t))).

Definition stop_updates (clk : nat -> Z) (status : Status) (w : World)
    (t : Transaction.t) : Updates :=
  let u := plain_updates clk status w t in
  let p := Transaction.pointsUsed t in
  let e := u_duration u in
  match students w !! Transaction.rfid t with
  | Some sd =>
      if refunds clk status w t
      then with_refund (refundPoints p e) (usedPoints p e)
             (or0 (Student.points sd) + refundPoints p e) u
      else u
  | None => u
  end.

Definition stop_students (clk : nat -> Z) (status : Status) (w : World)
    (t : Transaction.t) : gmap string Student.t :=
  let p := Transaction.pointsUsed t in
  let e := u_duration (plain_updates clk status w t) in
  match students w !! Transaction.rfid t with
  | Some sd =>
      if refunds clk status w t
      then <[Transaction.rfid t :=
               set_points (or0 (Student.points sd) + refundPoints p e) sd]> (students w)
      else students w
  | None => students w
  end.

Definition stopped_world (clk : nat -> Z) (id : TxId) (status : Status) (w : World)
    (t : Transaction.t) : World :=
  mkWorld (stop_students clk status w t)
          (<[id := apply_updates (stop_updates clk status w t) t]> (transactions w))
          (S (S (ticks w))).

(** An in-progress Session exists for the holder. *)
Definition has_active_session (rfid : string) (w : World) : Prop :=
  exists id t, transactions w !! id = Some t /\
               Transaction.rfid t = rfid /\ Transaction.status t = InProgress.

(** The lease of [w_leased] and Alice's account after its debit. *)
Definition lease_of_alice : Transaction.t :=
  started_session clk_250 "RF01" 10 "Universal Charger" 1 alice w_fresh.

Definition alice_debited : Student.t :=
  set_points_lastUsed 90 (Timestamp_fromMillis (clk_250 4)) alice.

(** A clock whose first read falls 100 ms before a full second and which
    advances 150 ms between two reads. *)
Definition clk_drift (n : nat) : Z := 1000900 + 150 * Z.of_nat n.

(** Two start requests of one holder in flight together: each gets past
    the account lookup and the active-lease query (two turns) before the
    other creates its Session (four turns: account read, Session write,
    balance write, account read). *)
Definition two_starts : list (Prog Response) :=
  [startChargingSession req_start10; startChargingSession req_start10].

Definition sched_race : list nat := [0; 0; 1; 1; 0; 0; 0; 0; 1; 1; 1; 1]%nat.

(** The same, with the two requests alternating turn by turn. *)
Definition sched_alternate : list nat := [0; 1; 0; 1; 0; 1; 0; 1; 0; 1; 0; 1]%nat.

(** The lease of [w_done]: Alice's lease, completed. *)
Definition lease_completed : Transaction.t :=
  apply_updates (plain_updates clk_250 Completed w_leased lease_of_alice)
                lease_of_alice.

Definition station_fresh : Station := mkStation w_fresh (Gpio.mkState ∅ []).

Definition req_start5 : StartBody.t := start_body "RF01" 5 "Own Charger" 2.

(** One step of symbolic execution of [run] on a program. *)
Ltac run_step :=
  cbn [run bind await exec_op Timestamp_now]; unfold tick;
  cbn [students transactions ticks].

(** ** The read-only functions of [TransactionModel]

    [getStudentTransactions], [getAllTransactions] and [getStudentStats]
    await one query and then compute on its snapshot without writing: they
    are functions of the store. A snapshot lists the documents in the order
    of the collection. *)

(** [query(collection(db, "transactions"), where("rfid", "==", r))] *)
Definition query_rfid (r : string) (txs : list Transaction.t)
  : list (TxId * Transaction.t) :=
  filter (fun d => Transaction.rfid (snd d) = r) (imap (fun i t => (i, t)) txs).

(** [getDocs(collection(db, "transactions"))] *)
Definition query_all (txs : list Transaction.t) : list (TxId * Transaction.t) :=
  imap (fun i t => (i, t)) txs.

(** [transactions.sort((a, b) => timeB - timeA)] on the [createdAt] seconds:
    [Array.prototype.sort] is stable, so the result is the stable sort by
    decreasing key, here by insertion. *)
Fixpoint insert_newest (x : TxId * Transaction.t) (l : list (TxId * Transaction.t))
  : list (TxId * Transaction.t) :=
  match l with
  | [] => [x]
  | y :: l' =>
      if createdAt_seconds y <=? createdAt_seconds x then x :: y :: l'
      else y :: insert_newest x l'
  end.

Definition sort_newest_first (l : list (TxId * Transaction.t))
  : list (TxId * Transaction.t) :=
  foldr insert_newest [] l.

(** [array.slice(0, n)]: a negative [n] counts from the end. *)
Definition slice0 {A} (n : Z) (l : list A) : list A :=
  if 0 <=? n then take (Z.to_nat n) l
  else take (length l - Z.to_nat (- n)) l.

(** [limitCount] is [None] when the caller leaves it out. *)
Definition getStudentTransactions (rfid : string) (limitCount : option Z)
    (w : World) : list (TxId * Transaction.t) :=
  slice0 (default 50 limitCount)
         (sort_newest_first (query_rfid rfid (transactions w))).

Definition getAllTransactions (limitCount : option Z) (w : World)
  : list (TxId * Transaction.t) :=
  slice0 (default 100 limitCount)
         (sort_newest_first (query_all (transactions w))).

(** [Math.round(a / n)] for integers [a] and [n > 0]: the nearest integer,
    a half rounding up (the quotient of two integers of the size of these
    totals is a half-integer only when the double division returns it
    exactly). *)
Definition Math_round_div (a n : Z) : Z := (2 * a + n) / (2 * n).

Module Stats.
Record t := mk {
  totalSessions : Z;
  totalPointsUsed : Z;
  totalDuration : Z;
  completedSessions : Z;
  cancelledSessions : Z;
  averagePointsPerSession : Z;
  averageDuration : Z
}.
End Stats.

(** The five counters of [getStudentStats] and the body of its [forEach];
    [pointsUsed || 0] is [pointsUsed], a number. *)
Record Counters := mkCounters {
  c_totalSessions : Z;
  c_totalPointsUsed : Z;
  c_totalDuration : Z;
  c_completedSessions : Z;
  c_cancelledSessions : Z
}.

Definition count_doc (c : Counters) (d : TxId * Transaction.t) : Counters :=
  let data := snd d in
  mkCounters
    (c_totalSessions c + 1)
    (c_totalPointsUsed c + Transaction.pointsUsed data)
    (if truthy_number (Transaction.duration data)
     then c_totalDuration c + or0 (Transaction.duration data)
     else c_totalDuration c)
    (if decide (Transaction.status data = Completed)
     then c_completedSessions c + 1 else c_completedSessions c)
    (if decide (Transaction.status data = Completed) then c_cancelledSessions c
     else if decide (Transaction.status data = Cancelled)
          then c_cancelledSessions c + 1 else c_cancelledSessions c).

Definition stats_of (c : Counters) : Stats.t :=
  Stats.mk (c_totalSessions c) (c_totalPointsUsed c) (c_totalDuration c)
    (c_completedSessions c) (c_cancelledSessions c)
    (if 0 <? c_totalSessions c
     then Math_round_div (c_totalPointsUsed c) (c_totalSessions c) else 0)
    (if 0 <? c_totalSessions c
     then Math_round_div (c_totalDuration c) (c_totalSessions c) else 0).

Definition getStudentStats (rfid : string) (w : World) : Stats.t :=
  stats_of (fold_left count_doc (query_rfid rfid (transactions w))
                      (mkCounters 0 0 0 0 0)).

(** ** The other endpoints of the controller *)

Inductive Reply (A : Type) : Type :=
| reply_json (payload : A)
| reply_error (status : Z) (error : string).

Arguments reply_json {A} payload.
Arguments reply_error {A} status error.

(** [req.params.rfid || req.session?.rfid] *)
Definition rfid_of_request (params_rfid session_rfid : option string)
  : option string :=
  if truthy_string params_rfid then params_rfid
  else if truthy_string session_rfid then session_rfid else None.

Definition getStudentTransactionHistory (params_rfid session_rfid : option string)
    (w : World) : Reply (list (TxId * Transaction.t) * Stats.t) :=
  match rfid_of_request params_rfid session_rfid with
  | None => reply_error 401 "Not authenticated"
  | Some rfid =>
      let transactions := getStudentTransactions rfid None w in
      let stats := getStudentStats rfid w in
      reply_json (transactions, stats)
  end.

Module PointsBody.
(** [req.body] of the add-points endpoint. *)
Record t := mk {
  rfid : string;
  points : Z
}.
End PointsBody.

Definition addPoints (body : PointsBody.t) : Prog (Reply unit) :=
  catch (
    await (updateDoc_student (PointsBody.rfid body)
             (set_points (PointsBody.points body))) ;;;
    Ret (reply_json tt))
  (fun message => Ret (reply_error 500 message)).

Definition getStudentByRFID (rfid : string) : Prog (Reply Student.t) :=
  catch (
    docSnap <- await (getDoc_student rfid) ;;
    match docSnap with
    | Some data => Ret (reply_json data)
    | None => Ret (reply_error 404 "Student not found")
    end)
  (fun message => Ret (reply_error 500 message)).

(** ** Invariants *)

(** No account has a negative balance. *)
Definition balances_nonneg (w : World) : Prop :=
  forall rfid sd, students w !! rfid = Some sd -> 0 <= or0 (Student.points sd).

(** The fields of a Session that are fixed at its creation. *)
Definition same_lease (t t' : Transaction.t) : Prop :=
  Transaction.rfid t' = Transaction.rfid t /\
  Transaction.studentName t' = Transaction.studentName t /\
  Transaction.email t' = Transaction.email t /\
  Transaction.pointsUsed t' = Transaction.pointsUsed t /\
  Transaction.socketType t' = Transaction.socketType t /\
  Transaction.socketNumber t' = Transaction.socketNumber t /\
  Transaction.startTime t' = Transaction.startTime t /\
  Transaction.expectedEndTime t' = Transaction.expectedEndTime t /\
  Transaction.createdAt t' = Transaction.createdAt t.

(** Snapshots listed newest first. *)
Definition newest_first (l : list (TxId * Transaction.t)) : Prop :=
  Sorted (fun a b => createdAt_seconds b <= createdAt_seconds a) l.

(** Every handle of the registry sits on the pin of its socket. *)
Definition registry_on_lineMap (st : Gpio.State) : Prop :=
  forall n g, Gpio.gpioInstances st !! n = Some g ->
    Gpio.lineMap n = Some (Gpio.pin g) /\ Gpio.direction g = "out".

(** The sum of [f] over a list. *)
Definition sum_over {A} (f : A -> Z) (l : list A) : Z :=
  foldr (fun x s => f x + s) 0 l.

(** The Sessions of a holder, in the order of the collection. *)
Definition sessions_of (rfid : string) (w : World) : list Transaction.t :=
  filter (fun t => Transaction.rfid t = rfid) (transactions w).

(** A store whose only Session belongs to a holder without account. *)
Definition w_orphan : World := mkWorld ∅ [lease_of_nobody] 0.

(** * Properties *)

(** ** The semantics of programs *)

Section RunLemmas.
Variable clk : nat -> Z.

Lemma run_bind {A B} (m : Prog A) (f : A -> Prog B) w :
  run clk (bind m f) w =
  match run clk m w with
  | (inr a, w') => run clk (f a) w'
  | (inl e, w') => (inl e, w')
  end.
Proof.
  revert w. induction m as [a|e|k IH|X op k IH]; intros w; simpl; auto.
  destruct (exec_op op w) as [r w']. apply IH.
Qed.

Lemma run_catch {A} (m : Prog A) (h : string -> Prog A) w :
  run clk (catch m h) w =
  match run clk m w with
  | (inr a, w') => (inr a, w')
  | (inl e, w') => run clk (h e) w'
  end.
Proof.
  revert w. induction m as [a|e|k IH|X op k IH]; intros w; simpl; auto.
  destruct (exec_op op w) as [r w']. apply IH.
Qed.

(** A handler that only rethrows does not change what a program does. *)
Lemma run_rethrow {A} (m : Prog A) w :
  run clk (catch m (fun e => Throw e)) w = run clk m w.
Proof.
  rewrite run_catch. destruct (run clk m w) as [[e|a] w']; reflexivity.
Qed.

(** Running a request alone is resuming it until it has answered. *)
Lemma run_resume {A} (m : Prog A) w :
  run clk m w = run clk (fst (resume clk m w)) (snd (resume clk m w)).
Proof.
  revert w. induction m as [a|e|k IH|X op k IH]; intros w; simpl; auto.
  destruct (exec_op op w) as [r w']. reflexivity.
Qed.

End RunLemmas.

(** ** Queries for the in-progress Sessions of a holder *)

Lemma query_active_snd_shift r (g : nat -> nat) (txs : list Transaction.t) :
  snd <$> filter (fun d : TxId * Transaction.t => is_active r (snd d))
                 (imap (fun i t => (g i, t)) txs)
  = filter (is_active r) txs.
Proof.
  revert g. induction txs as [|t txs IH]; intros g; [reflexivity|].
  rewrite imap_cons, !filter_cons. cbn [snd].
  destruct (decide (is_active r t)); rewrite ?fmap_cons; cbn [snd].
  - f_equal. exact (IH (g ∘ S)).
  - exact (IH (g ∘ S)).
Qed.

Lemma query_active_snd r (txs : list Transaction.t) :
  snd <$> query_active r txs = filter (is_active r) txs.
Proof. apply (query_active_snd_shift r id). Qed.

Lemma query_active_nil r (txs : list Transaction.t) :
  query_active r txs = [] <-> filter (is_active r) txs = [].
Proof.
  rewrite <- query_active_snd. split.
  - intros ->. reflexivity.
  - destruct (query_active r txs); [reflexivity|discriminate].
Qed.

Lemma run_getActiveTransaction clk r w :
  exists res, run clk (getActiveTransaction r) w = (inr res, w) /\
    (res = None <-> active_sessions r w = []).
Proof.
  unfold getActiveTransaction. rewrite run_rethrow. simpl.
  pose proof (query_active_nil r (transactions w)) as Hq.
  unfold active_sessions.
  destruct (query_active r (transactions w)) as [|d ds]; simpl.
  - exists None. split; [reflexivity|tauto].
  - eexists. split; [reflexivity|].
    split; [discriminate|]. intros H. apply Hq in H. discriminate.
Qed.

(** ** What a start request does *)

Lemma truthy_valid rfid p sT sN :
  valid_start rfid p sT sN ->
  negb (truthy_string (Some rfid)) || negb (truthy_number (Some p))
  || negb (truthy_string (Some sT)) || negb (truthy_number (Some sN)) = false.
Proof.
  intros (Hr & Hp & Ht & Hn). simpl.
  apply String.eqb_neq in Hr, Ht. apply Z.eqb_neq in Hp, Hn.
  rewrite Hr, Hp, Ht, Hn. reflexivity.
Qed.

Lemma run_startChargingSession clk rfid p sT sN w :
  valid_start rfid p sT sN ->
  run clk (startChargingSession (start_body rfid p sT sN)) w =
  match students w !! rfid with
  | None => (inr NotFound, w)
  | Some sd =>
      if decide (active_sessions rfid w = []) then
        if or0 (Student.points sd) <? p then (inr InsufficientBalance, tick w)
        else if decide (end_in_range clk w p)
        then (inr (json_started (length (transactions w))
                     (Some (or0 (Student.points sd) - p)) (p * 120)),
              started_world clk rfid p sT sN sd w)
        else (inr (json_error 500 "Timestamp seconds out of range"),
              refused_world w)
      else (inr Conflict, w)
  end.
Proof.
  intros Hv. unfold startChargingSession, start_body.
  cbn [StartBody.rfid StartBody.pointsToSpend StartBody.socketType StartBody.socketNumber].
  rewrite (truthy_valid _ _ _ _ Hv).
  rewrite run_catch, run_bind. cbn [await run exec_op].
  destruct (students w !! rfid) as [sd|] eqn:Hsd; [|reflexivity].
  rewrite run_bind.
  destruct (run_getActiveTransaction clk rfid w) as (res & -> & Hres).
  destruct (decide (active_sessions rfid w = [])) as [Hnone|Hsome].
  - apply Hres in Hnone. subst res.
    cbn [run]. rewrite run_bind. unfold createTransaction.
    cbn [TransactionData.rfid TransactionData.pointsToSpend TransactionData.status
         TransactionData.startTime TransactionData.expectedEndTime
         TransactionData.studentName TransactionData.email
         TransactionData.socketType TransactionData.socketNumber default fmap
         option_fmap option_map].
    rewrite run_rethrow. run_step. rewrite Hsd.
    destruct (or0 (Student.points sd) <? p) eqn:Hlt; [reflexivity|].
    run_step.
    destruct (decide (end_in_range clk w p)) as [Hin|Hout].
    + rewrite decide_True by exact Hin.
      run_step. rewrite Hsd. run_step. rewrite lookup_insert_eq. reflexivity.
    + rewrite decide_False by exact Hout. reflexivity.
  - destruct res as [d|]; [reflexivity|]. exfalso. apply Hsome, Hres. reflexivity.
Qed.

(** ** What a stop request does *)

Lemma run_completeTransaction clk id status w :
  run clk (completeTransaction id status) w =
  match transactions w !! id with
  | None => (inl "Transaction not found", w)
  | Some t => (inr (id, apply_updates (stop_updates clk status w t) t),
               stopped_world clk id status w t)
  end.
Proof.
  unfold completeTransaction. rewrite run_rethrow.
  run_step.
  destruct (transactions w !! id) as [t|] eqn:Ht; [|reflexivity].
  run_step.
  unfold stopped_world, stop_updates, stop_students, refunds.
  fold (plain_updates clk status w t).
  change (seconds (Timestamp_fromMillis (clk (ticks w))) -
          seconds (Transaction.startTime t))
    with (u_duration (plain_updates clk status w t)).
  destruct (bool_decide (status = Cancelled /\ Transaction.status t = InProgress));
    cbn [andb].
  - destruct (0 <? refundPoints (Transaction.pointsUsed t)
                     (u_duration (plain_updates clk status w t))) eqn:Hr.
    + run_step.
      destruct (students w !! Transaction.rfid t) as [sd|] eqn:Hsd.
      * run_step.
        rewrite Hsd.
        run_step.
        rewrite Ht. reflexivity.
      * run_step.
        rewrite Ht. reflexivity.
    + run_step.
      rewrite Ht. destruct (students w !! Transaction.rfid t); reflexivity.
  - run_step.
    rewrite Ht. destruct (students w !! Transaction.rfid t); reflexivity.
Qed.

Lemma apply_updates_rfid u t :
  Transaction.rfid (apply_updates u t) = Transaction.rfid t.
Proof. reflexivity. Qed.

Lemma stop_students_lookup clk status w t :
  stop_students clk status w t !! Transaction.rfid t =
  match students w !! Transaction.rfid t with
  | Some sd =>
      if refunds clk status w t
      then Some (set_points
                   (or0 (Student.points sd) +
                    refundPoints (Transaction.pointsUsed t)
                      (u_duration (plain_updates clk status w t))) sd)
      else Some sd
  | None => None
  end.
Proof.
  unfold stop_students.
  destruct (students w !! Transaction.rfid t) as [sd|] eqn:Hsd; [|exact Hsd].
  destruct (refunds clk status w t); [apply lookup_insert_eq|exact Hsd].
Qed.

Lemma run_stopChargingSession clk id status w :
  run clk (stopChargingSession (StopBody.mk (Some id) status)) w =
  match transactions w !! id with
  | None => (inr (json_error 500 "Transaction not found"), w)
  | Some t =>
      let final := finalStatus_of status in
      let w' := stopped_world clk id final w t in
      match students w' !! Transaction.rfid t with
      | Some sd =>
          (inr (json_stopped (id, apply_updates (stop_updates clk final w t) t)
                  (Student.points sd) final), w')
      | None =>
          (inr (json_error 500
                  "Cannot read properties of undefined (reading 'points')"), w')
      end
  end.
Proof.
  unfold stopChargingSession. cbn [StopBody.transactionId StopBody.status].
  rewrite run_catch, run_bind, run_completeTransaction.
  destruct (transactions w !! id) as [t|]; [|reflexivity].
  cbn [snd await run exec_op bind]. rewrite apply_updates_rfid.
  destruct (students _ !! Transaction.rfid t); reflexivity.
Qed.

Lemma finalStatus_of_terminal status : finalStatus_of status <> InProgress.
Proof.
  unfold finalStatus_of. destruct status as [s|]; [|discriminate].
  destruct (String.eqb s "cancelled"); discriminate.
Qed.

(** ** Billing *)

Lemma ceil_div_bounds a p :
  0 <= a <= p * 120 -> 0 <= ceil_div a 120 <= p.
Proof.
  intros Ha. unfold ceil_div.
  pose proof (Z.div_mod (- a) 120 ltac:(lia)).
  pose proof (Z.mod_pos_bound (- a) 120 ltac:(lia)). lia.
Qed.

Lemma ceil_div_0 : ceil_div 0 120 = 0.
Proof. reflexivity. Qed.

Lemma ceil_div_mul p : ceil_div (p * 120) 120 = p.
Proof.
  unfold ceil_div. replace (- (p * 120)) with ((- p) * 120) by lia.
  rewrite Z.div_mul by lia. lia.
Qed.

(** The code does not floor the refund at 0, and need not: for a lease of
    [p >= 0] points stopped after [e >= 0] seconds it is the [Refund] of the
    specification. *)
Lemma refundPoints_Refund p e :
  0 <= p -> 0 <= e ->
  refundPoints p e = Refund p e 120 /\ 0 <= refundPoints p e <= p.
Proof.
  intros Hp He. unfold refundPoints, usedPoints, Refund.
  pose proof (ceil_div_bounds (Z.min e (p * 120)) p ltac:(lia)). lia.
Qed.

Lemma balance_lookup w r sd :
  students w !! r = Some sd -> balance w r = or0 (Student.points sd).
Proof. unfold balance. intros ->. reflexivity. Qed.

(** C1. Cancelling an in-progress lease of [p > 0] points after [e >= 0]
    elapsed seconds computes the refund [p - ceil(min(e, p*120)/120)], which
    is never negative and is the [Refund] of the specification, and credits
    exactly that to the holder's account: the refund is [p] at [e = 0], 8 for
    [p = 10] and [e = 125], and 0 from [e = p*120] on. *)
Theorem C1_cancel_refund (clk : nat -> Z) (w : World) (id : TxId)
    (t : Transaction.t) (sd : Student.t) (p e : Z) :
  transactions w !! id = Some t ->
  Transaction.status t = InProgress ->
  students w !! Transaction.rfid t = Some sd ->
  p = Transaction.pointsUsed t ->
  e = clk (ticks w) / 1000 - seconds (Transaction.startTime t) ->
  0 < p -> 0 <= e ->
  let refund := p - ceil_div (Z.min e (p * 120)) 120 in
  refundPoints p e = refund /\
  0 <= refund /\
  refund = Refund p e 120 /\
  (e = 0 -> refund = p) /\
  (p = 10 -> e = 125 -> refund = 8) /\
  (p * 120 <= e -> refund = 0) /\
  exists t' w',
    run clk (completeTransaction id Cancelled) w = (inr (id, t'), w') /\
    balance w' (Transaction.rfid t) = balance w (Transaction.rfid t) + refund /\
    transactions w' !! id = Some t' /\
    Transaction.status t' = Cancelled /\
    Transaction.duration t' = Some e /\
    (0 < refund -> Transaction.pointsRefunded t' = Some refund).
Proof.
  intros Ht Hst Hsd Hp He Hpos Hnn refund.
  destruct (refundPoints_Refund p e ltac:(lia) Hnn) as [Hspec Hb].
  assert (Hr : refundPoints p e = refund) by reflexivity.
  split; [exact Hr|]. split; [lia|]. split; [congruence|].
  split; [intros ->; subst refund; rewrite Z.min_l by lia; rewrite ceil_div_0; lia|].
  split; [intros -> ->; reflexivity|].
  split; [intros Hfull; subst refund; rewrite Z.min_r by lia;
          rewrite ceil_div_mul; lia|].
  rewrite run_completeTransaction, Ht.
  eexists _, _. split; [reflexivity|].
  assert (Hdur : u_duration (plain_updates clk Cancelled w t) = e)
    by (subst e; reflexivity).
  assert (Hrf : refunds clk Cancelled w t = (0 <? refund)).
  { unfold refunds. rewrite Hdur, <- Hp, Hr, Hst.
    rewrite bool_decide_eq_true_2 by (split; reflexivity). reflexivity. }
  split; [|split; [|split; [|split]]].
  - unfold balance at 1. cbn [stopped_world students].
    rewrite stop_students_lookup, Hsd, Hrf, Hdur, <- Hp, Hr.
    rewrite (balance_lookup _ _ _ Hsd).
    destruct (0 <? refund) eqn:Hz; cbn; [reflexivity|].
    apply Z.ltb_ge in Hz. lia.
  - cbn [stopped_world transactions]. apply list_lookup_insert_eq.
    apply lookup_lt_Some in Ht. exact Ht.
  - unfold stop_updates. rewrite Hsd. destruct (refunds clk Cancelled w t); reflexivity.
  - unfold stop_updates. rewrite Hsd.
    destruct (refunds clk Cancelled w t); cbn [apply_updates Transaction.duration];
      f_equal; exact Hdur.
  - intros Hz. unfold stop_updates. rewrite Hsd, Hrf.
    apply Z.ltb_lt in Hz. rewrite Hz.
    cbn [apply_updates with_refund Transaction.pointsRefunded u_pointsRefunded].
    rewrite Hdur, <- Hp, Hr. reflexivity.
Qed.

(** ** The checks of a start request *)

Lemma has_active_session_iff rfid w :
  has_active_session rfid w <-> active_sessions rfid w <> [].
Proof.
  unfold has_active_session, active_sessions. split.
  - intros (id & t & Hl & Hr & Hs) Hnil.
    apply (filter_nil_not_elem_of _ _ t Hnil); [split; assumption|].
    apply list_elem_of_lookup. eauto.
  - intros Hne.
    destruct (filter (is_active rfid) (transactions w)) as [|t l] eqn:Hf; [done|].
    assert (Hin : t ∈ filter (is_active rfid) (transactions w))
      by (rewrite Hf; apply list_elem_of_here).
    apply list_elem_of_filter in Hin as [[Hr Hs] Hin].
    apply list_elem_of_lookup in Hin as [id Hid]. eauto.
Qed.

(** C7. A start request with valid fields fails with NotFound iff the holder
    has no account; otherwise with Conflict iff the holder has an in-progress
    Session; otherwise with InsufficientBalance iff the balance is below
    [pointsToSpend]. The checks are made in that order, so the earliest
    failing one decides the answer. A request that passes the three checks
    succeeds when the store accepts the Session, which it does when the
    expected end is a timestamp within range. *)
Theorem C7_start_checks_in_order (clk : nat -> Z) (w : World)
    (rfid : string) (p : Z) (socketType : string) (socketNumber : Z) :
  valid_start rfid p socketType socketNumber ->
  let res := fst (run clk (startChargingSession
                             (start_body rfid p socketType socketNumber)) w) in
  let no_account := students w !! rfid = None in
  (res = inr NotFound <-> no_account) /\
  (~ no_account ->
     (res = inr Conflict <-> has_active_session rfid w)) /\
  (~ no_account -> ~ has_active_session rfid w ->
     (res = inr InsufficientBalance <-> balance w rfid < p)) /\
  (~ no_account -> ~ has_active_session rfid w -> ~ balance w rfid < p ->
     end_in_range clk w p ->
     res = inr (json_started (length (transactions w))
                  (Some (balance w rfid - p)) (p * 120))).
Proof.
  intros Hv res no_account. subst res no_account.
  rewrite (run_startChargingSession clk _ _ _ _ w Hv).
  rewrite has_active_session_iff. unfold balance.
  destruct (students w !! rfid) as [sd|] eqn:Hsd; cbn [mbind option_bind].
  - destruct (decide (active_sessions rfid w = [])) as [Hn|Hn].
    + destruct (or0 (Student.points sd) <? p) eqn:Hlt;
        [apply Z.ltb_lt in Hlt | apply Z.ltb_ge in Hlt];
        [|destruct (decide (end_in_range clk w p)) as [Hin|Hout]]; cbn [fst];
        repeat split; try discriminate; try tauto; try lia; intros; try lia;
        try contradiction.
    + cbn [fst]. repeat split; try discriminate; try tauto; try contradiction.
  - cbn [fst]. repeat split; try tauto; try contradiction.
Qed.

(** ** Accounts without a [points] field *)

Lemma run_createTransaction_insufficient clk d w sd :
  students w !! TransactionData.rfid d = Some sd ->
  or0 (Student.points sd) < TransactionData.pointsToSpend d ->
  run clk (createTransaction d) w = (inl "Insufficient points", w).
Proof.
  intros Hsd Hlt. unfold createTransaction. rewrite run_rethrow. run_step.
  rewrite Hsd. apply Z.ltb_lt in Hlt. rewrite Hlt. reflexivity.
Qed.

(** C10. An account whose [points] field is absent or null has balance 0 on
    both paths. Debit: [createTransaction] for any positive [pointsToSpend]
    throws "Insufficient points" and writes nothing, and so a start request
    that reaches it answers InsufficientBalance with the store unchanged.
    Credit: a cancellation that refunds [r > 0] points stores exactly [r] as
    the balance. *)
Theorem C10_absent_points_count_as_zero (clk : nat -> Z) (w : World)
    (rfid : string) (sd : Student.t) :
  students w !! rfid = Some sd ->
  Student.points sd = None ->
  (forall d, TransactionData.rfid d = rfid ->
             0 < TransactionData.pointsToSpend d ->
             run clk (createTransaction d) w = (inl "Insufficient points", w)) /\
  (forall p socketType socketNumber,
      valid_start rfid p socketType socketNumber -> 0 < p ->
      ~ has_active_session rfid w ->
      exists w',
        run clk (startChargingSession (start_body rfid p socketType socketNumber)) w
          = (inr InsufficientBalance, w') /\
        students w' = students w /\ transactions w' = transactions w) /\
  (forall id t r,
      transactions w !! id = Some t ->
      Transaction.rfid t = rfid ->
      Transaction.status t = InProgress ->
      r = refundPoints (Transaction.pointsUsed t)
            (clk (ticks w) / 1000 - seconds (Transaction.startTime t)) ->
      0 < r ->
      let w' := snd (run clk (completeTransaction id Cancelled) w) in
      students w' !! rfid = Some (set_points r sd) /\ balance w' rfid = r).
Proof.
  intros Hsd Hnone. split; [|split].
  - intros d <- Hpos. apply (run_createTransaction_insufficient clk d w sd Hsd).
    rewrite Hnone. exact Hpos.
  - intros p sT sN Hv Hpos Hna.
    rewrite (run_startChargingSession clk _ _ _ _ w Hv), Hsd.
    rewrite has_active_session_iff in Hna.
    destruct (decide (active_sessions rfid w = [])) as [_|Hne];
      [|exfalso; apply Hna, Hne].
    rewrite Hnone. cbn [or0]. apply Z.ltb_lt in Hpos. rewrite Hpos.
    eexists. split; [reflexivity|]. split; reflexivity.
  - intros id t r Ht <- Hst Hr Hpos w'. subst w'.
    rewrite run_completeTransaction, Ht. cbn [snd stopped_world].
    assert (Hrf : refunds clk Cancelled w t = true).
    { unfold refunds. rewrite Hst.
      rewrite bool_decide_eq_true_2 by (split; reflexivity).
      cbn [andb]. apply Z.ltb_lt.
      change (u_duration (plain_updates clk Cancelled w t))
        with (clk (ticks w) / 1000 - seconds (Transaction.startTime t)).
      rewrite <- Hr. exact Hpos. }
    assert (Hl : stop_students clk Cancelled w t !! Transaction.rfid t
                 = Some (set_points r sd)).
    { rewrite stop_students_lookup, Hsd, Hrf, Hnone. cbn [or0].
      change (u_duration (plain_updates clk Cancelled w t))
        with (clk (ticks w) / 1000 - seconds (Transaction.startTime t)).
      rewrite <- Hr. reflexivity. }
    split; [exact Hl|]. unfold balance, stopped_world. cbn [students]. rewrite Hl. reflexivity.
Qed.

(** ** One in-progress Session per holder *)

Lemma start_cases clk body w :
  let w' := snd (run clk (startChargingSession body) w) in
  (students w' = students w /\ transactions w' = transactions w) \/
  (exists rfid p sT sN sd,
      body = start_body rfid p sT sN /\ valid_start rfid p sT sN /\
      students w !! rfid = Some sd /\ active_sessions rfid w = [] /\
      w' = started_world clk rfid p sT sN sd w).
Proof.
  destruct body as [[r|] [p|] [sT|] [sN|]]; try (left; split; reflexivity).
  destruct (String.eqb r "") eqn:Hr;
    [left; unfold startChargingSession; cbn; rewrite Hr; split; reflexivity|].
  destruct (p =? 0) eqn:Hp;
    [left; unfold startChargingSession; cbn; rewrite Hr, Hp; split; reflexivity|].
  destruct (String.eqb sT "") eqn:Ht;
    [left; unfold startChargingSession; cbn; rewrite Hr, Hp, Ht; split; reflexivity|].
  destruct (sN =? 0) eqn:Hn;
    [left; unfold startChargingSession; cbn; rewrite Hr, Hp, Ht, Hn; split; reflexivity|].
  assert (Hv : valid_start r p sT sN).
  { apply String.eqb_neq in Hr, Ht. apply Z.eqb_neq in Hp, Hn. repeat split; assumption. }
  change (StartBody.mk (Some r) (Some p) (Some sT) (Some sN))
    with (start_body r p sT sN).
  cbv zeta. rewrite (run_startChargingSession clk _ _ _ _ w Hv).
  destruct (students w !! r) as [sd|] eqn:Hsd; [|left; split; reflexivity].
  destruct (decide (active_sessions r w = [])) as [Hna|Ha];
    [|left; split; reflexivity].
  destruct (or0 (Student.points sd) <? p); [left; split; reflexivity|].
  destruct (decide (end_in_range clk w p)); [|left; split; reflexivity].
  right. exists r, p, sT, sN, sd. repeat split; try assumption; apply Hv.
Qed.

Lemma stop_cases clk body w :
  let w' := snd (run clk (stopChargingSession body) w) in
  w' = w \/
  (exists id t, StopBody.transactionId body = Some id /\
      transactions w !! id = Some t /\
      w' = stopped_world clk id (finalStatus_of (StopBody.status body)) w t).
Proof.
  destruct body as [[id|] status]; [|left; reflexivity].
  cbv zeta. rewrite run_stopChargingSession.
  destruct (transactions w !! id) as [t|] eqn:Ht; [|left; reflexivity].
  right. exists id, t. cbn [StopBody.transactionId StopBody.status].
  split; [reflexivity|]. split; [exact Ht|].
  cbv zeta. destruct (students _ !! Transaction.rfid t); reflexivity.
Qed.

(** Finalizing a Session never adds an in-progress Session to a holder. *)
Lemma active_insert_terminal h (l : list Transaction.t) i t t' :
  l !! i = Some t -> Transaction.status t' <> InProgress ->
  (length (filter (is_active h) (<[i := t']> l)) <= length (filter (is_active h) l))%nat.
Proof.
  revert i. induction l as [|x l IH]; intros i Hl Hs; [discriminate|].
  destruct i as [|i]; cbn [insert list_insert].
  - rewrite !filter_cons.
    destruct (decide (is_active h t')) as [[_ Ha]|_]; [contradiction|].
    destruct (decide (is_active h x)); cbn [length];
      [apply Nat.le_succ_diag_r|apply Nat.le_refl].
  - rewrite !filter_cons. specialize (IH i Hl Hs).
    destruct (decide (is_active h x)); cbn [length];
      [apply le_n_S|]; exact IH.
Qed.

Lemma stop_updates_status clk status w t :
  u_status (stop_updates clk status w t) = status.
Proof.
  unfold stop_updates.
  destruct (students w !! Transaction.rfid t); [|reflexivity].
  destruct (refunds clk status w t); reflexivity.
Qed.

Lemma one_active_start clk body w :
  one_active_per_holder w ->
  one_active_per_holder (snd (run clk (startChargingSession body) w)).
Proof.
  intros Hinv h. unfold active_sessions.
  destruct (start_cases clk body w) as [[_ ->]|(r & p & sT & sN & sd & _ & _ & _ & Hna & ->)];
    [apply Hinv|].
  cbn [started_world transactions]. rewrite filter_app, length_app.
  destruct (decide (h = r)) as [->|Hne].
  - unfold active_sessions in Hna. rewrite Hna.
    pose proof (length_filter (is_active r)
                  [started_session clk r p sT sN sd w]). cbn [length] in *. lia.
  - rewrite (filter_cons_False (is_active h)), filter_nil.
    + specialize (Hinv h). unfold active_sessions in Hinv. cbn [length]. lia.
    + intros [Hr _]. apply Hne. symmetry. exact Hr.
Qed.

Lemma one_active_stop clk body w :
  one_active_per_holder w ->
  one_active_per_holder (snd (run clk (stopChargingSession body) w)).
Proof.
  intros Hinv h. unfold active_sessions.
  destruct (stop_cases clk body w) as [->|(id & t & _ & Ht & ->)]; [apply Hinv|].
  cbn [stopped_world transactions].
  etransitivity; [apply (active_insert_terminal h _ id t _ Ht)|apply Hinv].
  cbn [apply_updates Transaction.status]. rewrite stop_updates_status.
  apply finalStatus_of_terminal.
Qed.

(** Handled in turn, the requests keep the invariant: in every state that
    a sequence of StartLease and StopLease requests, each run to completion
    before the next begins, leads to from a store without Sessions, every
    holder has at most one Session with status in-progress. *)
Lemma one_active_session_when_handled_in_turn (clk : nat -> Z) (w : World) :
  reachable_in_turn clk w ->
  forall rfid : string,
    (length (filter (fun t => Transaction.rfid t = rfid /\
                              Transaction.status t = InProgress)
                    (transactions w)) <= 1)%nat.
Proof.
  intros Hreach. change (one_active_per_holder w).
  induction Hreach as [accounts n|r w _ IH].
  - intros h. cbn. lia.
  - destruct r as [body|body]; [apply one_active_start|apply one_active_stop];
      exact IH.
Qed.

(** C3 fails when two start requests of one holder are in flight together:
    from the fresh store, which has no Session, the interleaving
    [sched_alternate] of Alice's two requests answers both with a success
    and leaves her with two Sessions with status in-progress. *)
Theorem C3_two_active_sessions_of_one_holder :
  let '(answers, w') := interleave clk_250 sched_alternate two_starts w_fresh in
  transactions w_fresh = [] /\
  answers = [Ret (json_started 0%nat (Some 90) 1200);
             Ret (json_started 1%nat (Some 90) 1200)] /\
  Transaction.rfid <$> transactions w' = ["RF01"; "RF01"] /\
  Transaction.status <$> transactions w' = [InProgress; InProgress] /\
  length (filter (fun t => Transaction.rfid t = "RF01" /\
                           Transaction.status t = InProgress)
                 (transactions w')) = 2%nat.
Proof. vm_compute. repeat split; reflexivity. Qed.

(** ** Stopping a Session that is already terminal *)

Lemma refunds_terminal clk status w t :
  terminal t -> refunds clk status w t = false.
Proof.
  intros Ht. unfold refunds.
  rewrite bool_decide_eq_false_2; [reflexivity|]. intros [_ Hs]. exact (Ht Hs).
Qed.

(** C4, as the code has it. A stop request on a Session that is already
    completed or cancelled is not rejected: it finalizes the record again
    (requested status, new end time, duration and update time). It credits
    nothing: no account is written, so a refund is never paid twice. *)
Theorem C4_stop_on_terminal_session (clk : nat -> Z) (w : World) (id : TxId)
    (t : Transaction.t) (status : option string) :
  transactions w !! id = Some t ->
  terminal t ->
  let final := finalStatus_of status in
  let t' := apply_updates (plain_updates clk final w t) t in
  exists res w',
    run clk (stopChargingSession (StopBody.mk (Some id) status)) w = (res, w') /\
    students w' = students w /\
    (forall rfid, balance w' rfid = balance w rfid) /\
    transactions w' = <[id := t']> (transactions w) /\
    Transaction.status t' = final /\
    Transaction.pointsRefunded t' = Transaction.pointsRefunded t /\
    (forall sd, students w !! Transaction.rfid t = Some sd ->
                res = inr (json_stopped (id, t') (Student.points sd) final)).
Proof.
  intros Ht Hterm final t'. subst final t'.
  rewrite run_stopChargingSession, Ht. cbv zeta.
  assert (Hu : stop_updates clk (finalStatus_of status) w t
               = plain_updates clk (finalStatus_of status) w t).
  { unfold stop_updates. rewrite (refunds_terminal _ _ _ _ Hterm).
    destruct (students w !! Transaction.rfid t); reflexivity. }
  assert (Hs : stop_students clk (finalStatus_of status) w t = students w).
  { unfold stop_students. rewrite (refunds_terminal _ _ _ _ Hterm).
    destruct (students w !! Transaction.rfid t); reflexivity. }
  unfold stopped_world. rewrite Hu, Hs. cbn [students].
  destruct (students w !! Transaction.rfid t) as [sd|] eqn:Hsd;
    (eexists _, _; split; [reflexivity|]);
    cbn [students transactions]; unfold balance; cbn [students];
    (split; [reflexivity|]); (split; [reflexivity|]); (split; [reflexivity|]);
    (split; [reflexivity|]); (split; [reflexivity|]).
  - intros sd' [= <-]. reflexivity.
  - intros sd' [=].
Qed.

(** ** Start requests of one holder *)

Lemma start_conflict clk rfid p sT sN w sd :
  valid_start rfid p sT sN ->
  students w !! rfid = Some sd ->
  active_sessions rfid w <> [] ->
  run clk (startChargingSession (start_body rfid p sT sN)) w = (inr Conflict, w).
Proof.
  intros Hv Hsd Ha. rewrite (run_startChargingSession clk _ _ _ _ w Hv), Hsd.
  destruct (decide (active_sessions rfid w = [])); [contradiction|reflexivity].
Qed.

Lemma serve_all_conflicts clk rfid (later : list StartBody.t) st sd :
  students (world st) !! rfid = Some sd ->
  active_sessions rfid (world st) <> [] ->
  Forall (fun b => exists p sT sN,
              b = start_body rfid p sT sN /\ valid_start rfid p sT sN) later ->
  serve_all clk (map StartLease later) st
  = (map (fun _ => inr Conflict) later, st).
Proof.
  intros Hsd Ha Hall. induction Hall as [|b later (p & sT & sN & -> & Hv) _ IH];
    [reflexivity|].
  cbn [map serve_all]. unfold serve at 1. cbn [handler].
  rewrite (start_conflict clk _ _ _ _ _ sd Hv Hsd Ha).
  replace (mkStation (world st) (relays st)) with st by (destruct st; reflexivity).
  rewrite IH. reflexivity.
Qed.

(** When the start requests of one holder are handled one after the other,
    each to completion, from a state where the holder has an account with a
    sufficient balance and no in-progress Session, and the store accepts the
    Session of the first, the first succeeds, every later one fails with
    Conflict, the balance is debited once and the holder ends with exactly
    one in-progress Session. *)
Lemma starts_handled_in_turn (clk : nat -> Z) (st : Station)
    (rfid : string) (sd : Student.t) (p : Z) (socketType : string)
    (socketNumber : Z) (later : list StartBody.t) :
  valid_start rfid p socketType socketNumber ->
  students (world st) !! rfid = Some sd ->
  p <= or0 (Student.points sd) ->
  ~ has_active_session rfid (world st) ->
  end_in_range clk (world st) p ->
  Forall (fun b => exists p' sT' sN',
              b = start_body rfid p' sT' sN' /\ valid_start rfid p' sT' sN') later ->
  exists st',
    serve_all clk
      (StartLease (start_body rfid p socketType socketNumber) :: map StartLease later)
      st
    = (inr (json_started (length (transactions (world st)))
              (Some (or0 (Student.points sd) - p)) (p * 120))
         :: map (fun _ => inr Conflict) later,
       st') /\
    balance (world st') rfid = balance (world st) rfid - p /\
    length (active_sessions rfid (world st')) = 1%nat.
Proof.
  intros Hv Hsd Hbal Hna Hin Hall.
  rewrite has_active_session_iff in Hna.
  assert (Hnil : active_sessions rfid (world st) = []).
  { destruct (active_sessions rfid (world st)); [reflexivity|]. exfalso. apply Hna. discriminate. }
  cbn [serve_all]. unfold serve at 1. cbn [handler].
  rewrite (run_startChargingSession clk _ _ _ _ _ Hv), Hsd.
  destruct (decide (active_sessions rfid (world st) = [])) as [_|Hne];
    [|contradiction].
  apply Z.ltb_ge in Hbal. rewrite Hbal.
  rewrite decide_True by exact Hin.
  set (w1 := started_world clk rfid p socketType socketNumber sd (world st)).
  assert (Hact : active_sessions rfid w1
                 = [started_session clk rfid p socketType socketNumber sd (world st)]).
  { unfold active_sessions, w1. cbn [started_world transactions].
    unfold active_sessions in Hnil. rewrite filter_app, Hnil.
    rewrite filter_cons_True by (split; reflexivity). reflexivity. }
  assert (Hsd1 : students w1 !! rfid
                 = Some (set_points_lastUsed (or0 (Student.points sd) - p)
                           (Timestamp_fromMillis (clk (S (S (S (S (ticks (world st))))))))
                           sd)).
  { unfold w1. cbn [started_world students]. apply lookup_insert_eq. }
  rewrite (serve_all_conflicts clk rfid later (mkStation w1 (relays st)) _ Hsd1)
    by (cbn [world]; rewrite ?Hact; try discriminate; exact Hall).
  eexists. split; [reflexivity|]. cbn [world]. split.
  - unfold balance. rewrite Hsd1, Hsd. reflexivity.
  - rewrite Hact. reflexivity.
Qed.

(** C2 fails when two start requests of one holder are in flight together:
    the active-lease check and the creation of the Session are separate
    awaited calls. With the interleaving [sched_race] of Alice's two
    requests, each passes the check before the other creates its Session:
    both are answered with a success, none with Conflict, she ends with two
    in-progress Sessions and is debited twice. *)
Theorem C2_concurrent_starts_both_succeed :
  let '(answers, w') := interleave clk_250 sched_race two_starts w_fresh in
  answers = [Ret (json_started 0%nat (Some 90) 1200);
             Ret (json_started 1%nat (Some 80) 1200)] /\
  length (active_sessions "RF01" w') = 2%nat /\
  balance w_fresh "RF01" = 100 /\ balance w' "RF01" = 80.
Proof. vm_compute. repeat split; reflexivity. Qed.

(** With the turns alternating, both are accepted as well and the second
    balance write overwrites the first: two Sessions for one debit. *)
Lemma concurrent_starts_lost_update :
  let '(answers, w') := interleave clk_250 sched_alternate two_starts w_fresh in
  answers = [Ret (json_started 0%nat (Some 90) 1200);
             Ret (json_started 1%nat (Some 90) 1200)] /\
  length (active_sessions "RF01" w') = 2%nat /\
  balance w' "RF01" = 90.
Proof. vm_compute. repeat split; reflexivity. Qed.

(** ** The [pointsToSpend] of a start request *)

(** A request with [pointsToSpend = 0] (or without the field) is a malformed
    request and changes nothing. *)
Lemma start_zero_points_rejected clk rfid socketType socketNumber w :
  run clk (startChargingSession
             (StartBody.mk rfid (Some 0) socketType socketNumber)) w
  = (inr MalformedRequest, w) /\
  run clk (startChargingSession
             (StartBody.mk rfid None socketType socketNumber)) w
  = (inr MalformedRequest, w).
Proof.
  split.
  - destruct rfid as [r|], socketType as [sT|], socketNumber as [sN|];
      try reflexivity.
    unfold startChargingSession. cbn. rewrite orb_true_r. reflexivity.
  - destruct rfid as [r|]; reflexivity.
Qed.

(** A negative [pointsToSpend] passes the field check and the balance check:
    when the store accepts the Session, the request is accepted, a Session
    of negative length is created and the account is credited. *)
Lemma start_negative_points_accepted clk rfid p sT sN w sd :
  valid_start rfid p sT sN -> p < 0 ->
  students w !! rfid = Some sd -> 0 <= or0 (Student.points sd) ->
  ~ has_active_session rfid w -> end_in_range clk w p ->
  let '(res, w') := run clk (startChargingSession (start_body rfid p sT sN)) w in
  res = inr (json_started (length (transactions w))
               (Some (or0 (Student.points sd) - p)) (p * 120)) /\
  balance w' rfid = balance w rfid - p /\
  length (transactions w') = S (length (transactions w)).
Proof.
  intros Hv Hneg Hsd Hbal Hna Hin.
  rewrite (run_startChargingSession clk _ _ _ _ _ Hv), Hsd.
  rewrite has_active_session_iff in Hna.
  destruct (decide (active_sessions rfid w = [])) as [_|Hne];
    [|exfalso; apply Hna, Hne].
  replace (or0 (Student.points sd) <? p) with false by (symmetry; apply Z.ltb_ge; lia).
  rewrite decide_True by exact Hin.
  split; [reflexivity|]. split.
  - unfold balance, started_world. cbn [students].
    rewrite lookup_insert_eq, Hsd. reflexivity.
  - unfold started_world. cbn [transactions]. rewrite length_app. cbn. lia.
Qed.

(** The store refuses a Session whose expected end is not a timestamp
    within range: the request has passed the checks, is answered with the
    error of the store and nothing is written. *)
Lemma start_refused_by_store clk rfid p sT sN w sd :
  valid_start rfid p sT sN ->
  students w !! rfid = Some sd -> p <= or0 (Student.points sd) ->
  ~ has_active_session rfid w -> ~ end_in_range clk w p ->
  run clk (startChargingSession (start_body rfid p sT sN)) w
  = (inr (json_error 500 "Timestamp seconds out of range"), refused_world w).
Proof.
  intros Hv Hsd Hle Hna Hout.
  rewrite (run_startChargingSession clk _ _ _ _ _ Hv), Hsd.
  rewrite has_active_session_iff in Hna.
  destruct (decide (active_sessions rfid w = [])) as [_|Hne];
    [|exfalso; apply Hna, Hne].
  replace (or0 (Student.points sd) <? p) with false by (symmetry; apply Z.ltb_ge; lia).
  rewrite decide_False by exact Hout. reflexivity.
Qed.

(** With a balance of 3000000000 points, a start for 2200000000 points
    would end after the year 9999: it is refused. *)
Example start_refused_example :
  let rich := Student.mk "Carol" "carol@example.org" (Some 3000000000) None in
  let w := mkWorld {[ "RF03" := rich ]} [] 0 in
  run clk_250 (startChargingSession
                 (start_body "RF03" 2200000000 "Universal Charger" 1)) w
  = (inr (json_error 500 "Timestamp seconds out of range"), refused_world w).
Proof. vm_compute. reflexivity. Qed.

(** C5 fails at [pointsToSpend = -5]: the request of [req_start_negative] on
    the fresh store is answered with a success, a Session is created and
    Alice's balance goes from 100 to 105. *)
Theorem C5_negative_pointsToSpend_accepted :
  let '(res, w') := run clk_250 (startChargingSession req_start_negative) w_fresh in
  res = inr (json_started 0%nat (Some 105) (-600)) /\
  length (transactions w_fresh) = 0%nat /\ length (transactions w') = 1%nat /\
  Transaction.pointsUsed <$> transactions w' !! 0%nat = Some (-5) /\
  balance w_fresh "RF01" = 100 /\ balance w' "RF01" = 105.
Proof. vm_compute. repeat split; reflexivity. Qed.

(** ** The expected end of a lease *)

Lemma Timestamp_toMillis_fromMillis ms :
  Timestamp_toMillis (Timestamp_fromMillis ms) = ms.
Proof.
  unfold Timestamp_toMillis, Timestamp_fromMillis. cbn [seconds nanoseconds].
  rewrite Z.div_mul by lia. pose proof (Z.div_mod ms 1000 ltac:(lia)). lia.
Qed.

(** The expected end is computed from the clock read of the controller, the
    start time is read later by [createTransaction]: their distance is the
    duration bought, less the time between the two reads. *)
Lemma started_session_expected_end clk rfid p sT sN sd w :
  let t := started_session clk rfid p sT sN sd w in
  Timestamp_toMillis <$> Transaction.expectedEndTime t
  = Some (Timestamp_toMillis (Transaction.startTime t) + p * 120 * 1000
          - (clk (S (ticks w)) - clk (ticks w))).
Proof.
  cbn. rewrite !Timestamp_toMillis_fromMillis. f_equal. lia.
Qed.

(** C6 fails when the clock advances between the two reads: with
    [clk_drift] the controller reads 1000.900 s and [createTransaction]
    reads 1001.050 s, so the 10-point lease expects its end 1199.850 s after
    its start, 1199 s on the [seconds] of the two timestamps, not 1200 s. *)
Theorem C6_expected_end_drifts :
  let '(res, w') := run clk_drift (startChargingSession req_start10) w_fresh in
  res = inr (json_started 0%nat (Some 90) 1200) /\
  match transactions w' !! 0%nat with
  | Some t =>
      Transaction.pointsUsed t = 10 /\
      Timestamp_toMillis <$> Transaction.expectedEndTime t
        = Some (Timestamp_toMillis (Transaction.startTime t) + 1199850) /\
      seconds <$> Transaction.expectedEndTime t
        = Some (seconds (Transaction.startTime t) + 1199) /\
      1199 < 10 * 120
  | None => False
  end.
Proof. vm_compute. repeat split; reflexivity. Qed.

(** When the clock stands still between the two reads, the distance is the
    duration bought exactly. *)
Lemma started_session_expected_end_exact clk rfid p sT sN sd w :
  clk (S (ticks w)) = clk (ticks w) ->
  let t := started_session clk rfid p sT sN sd w in
  Timestamp_toMillis <$> Transaction.expectedEndTime t
  = Some (Timestamp_toMillis (Transaction.startTime t) + p * 120 * 1000).
Proof.
  intros Hclk t. subst t. rewrite started_session_expected_end, Hclk. f_equal. lia.
Qed.

(** ** Relays *)

Section Relays.
Import Gpio.

Lemma lookup_write_instance n v st m :
  gpioInstances (write_instance n v st) !! m =
  if decide (n = m) then writeSync v <$> gpioInstances st !! n
  else gpioInstances st !! m.
Proof.
  unfold write_instance.
  destruct (gpioInstances st !! n) as [g|] eqn:Hg; cbn [gpioInstances].
  - rewrite lookup_insert. destruct (decide (n = m)); reflexivity.
  - destruct (decide (n = m)) as [<-|]; [exact Hg|reflexivity].
Qed.

Lemma lookup_ensure_instance n p st m :
  gpioInstances (ensure_instance n p st) !! m =
  if decide (n = m)
  then Some (default (new_MockGpio p "out") (gpioInstances st !! n))
  else gpioInstances st !! m.
Proof.
  unfold ensure_instance.
  destruct (gpioInstances st !! n) as [g|] eqn:Hg; cbn [gpioInstances].
  - destruct (decide (n = m)) as [<-|]; [exact Hg|reflexivity].
  - rewrite lookup_insert. destruct (decide (n = m)); reflexivity.
Qed.

(** What [turnOnSocket] ([v = 1]) and [turnOffSocket] ([v = 0]) leave in
    the registry. *)
Lemma lookup_switch n p v st m :
  gpioInstances (write_instance n v (ensure_instance n p st)) !! m =
  if decide (n = m)
  then Some (writeSync v (default (new_MockGpio p "out") (gpioInstances st !! n)))
  else gpioInstances st !! m.
Proof.
  rewrite lookup_write_instance, !lookup_ensure_instance.
  destruct (decide (n = m)); [|reflexivity].
  rewrite decide_True by reflexivity. reflexivity.
Qed.

Lemma switch_twice n p v st :
  gpioInstances (write_instance n v (ensure_instance n p
                   (write_instance n v (ensure_instance n p st))))
  = gpioInstances (write_instance n v (ensure_instance n p st)).
Proof.
  apply map_eq. intros m. rewrite lookup_switch.
  destruct (decide (n = m)) as [<-|Hne]; [|reflexivity].
  rewrite lookup_switch, decide_True by reflexivity. reflexivity.
Qed.

(** A second switch of a socket finds its handle and constructs none. *)
Lemma switch_again_log n p v v' st :
  let st1 := write_instance n v (ensure_instance n p st) in
  exists g, gpioInstances st1 !! n = Some g /\
    driver_log (write_instance n v' (ensure_instance n p st1))
    = driver_log st1 ++ [call_writeSync (pin g) v'].
Proof.
  intros st1.
  assert (H1 : gpioInstances st1 !! n
               = Some (writeSync v (default (new_MockGpio p "out")
                                      (gpioInstances st !! n)))).
  { unfold st1. rewrite lookup_switch, decide_True by reflexivity. reflexivity. }
  eexists. split; [exact H1|].
  unfold ensure_instance at 1. rewrite H1.
  unfold write_instance at 1. rewrite H1. reflexivity.
Qed.

Lemma handles_created_app p st l :
  handles_created p (mkState (gpioInstances st) (driver_log st ++ l))
  = (handles_created p st + length (filter (fun c => c = call_new p) l))%nat.
Proof. unfold handles_created. cbn [driver_log]. rewrite filter_app, length_app. reflexivity. Qed.

End Relays.

Section RelayClaims.
Import Gpio.

Lemma handles_created_switch n p v st :
  handles_created p (write_instance n v (ensure_instance n p st))
  = (handles_created p st
     + if decide (gpioInstances st !! n = None) then 1 else 0)%nat.
Proof.
  unfold handles_created, write_instance, ensure_instance.
  destruct (gpioInstances st !! n) as [g|] eqn:Hg.
  - rewrite Hg. cbn [driver_log]. rewrite filter_app, length_app.
    rewrite filter_cons_False by discriminate.
    rewrite decide_False by discriminate. reflexivity.
  - cbn [gpioInstances driver_log]. rewrite lookup_insert_eq. cbn [driver_log].
    rewrite !filter_app, !length_app.
    rewrite filter_cons_True by reflexivity.
    rewrite filter_cons_False by discriminate.
    rewrite decide_True by reflexivity. cbn. lia.
Qed.

Lemma driver_log_switch n p v st :
  driver_log (write_instance n v (ensure_instance n p st))
  = driver_log st
    ++ (if decide (gpioInstances st !! n = None) then [call_new p] else [])
    ++ [call_writeSync
          (pin (default (new_MockGpio p "out") (gpioInstances st !! n))) v].
Proof.
  unfold write_instance, ensure_instance.
  destruct (gpioInstances st !! n) as [g|] eqn:Hg.
  - rewrite Hg. cbn [driver_log default]. rewrite decide_False by discriminate.
    reflexivity.
  - cbn [gpioInstances driver_log]. rewrite lookup_insert_eq.
    cbn [driver_log default]. rewrite decide_True by reflexivity.
    rewrite <- app_assoc. reflexivity.
Qed.

Lemma elem_of_entries (m : gmap Z MockGpio) (e : Z * MockGpio) :
  In e (entries m) <-> m !! fst e = Some (snd e).
Proof.
  unfold entries. rewrite <- list_elem_of_In, merge_sort_Permutation.
  destruct e as [k g]. apply elem_of_map_to_list.
Qed.

Lemma length_entries (m : gmap Z MockGpio) : length (entries m) = size m.
Proof.
  unfold entries. rewrite merge_sort_Permutation. apply length_map_to_list.
Qed.

(** C8, as the code has it. A stop request that is answered with a success
    has finalized the Session record (terminal status, end time set, socket
    number kept) and has made no call on the output driver: the registry of
    handles, the driver log and so the relay state of every socket, the
    stopped Session's socket included, are what they were. De-energizing is
    the effect of [turnOffSocket] alone, which for a valid socket number
    writes 0 through the handle of the socket, constructed first when the
    socket has none, leaves that handle in the registry with value 0 and
    leaves the handles of all other sockets as they were. *)
Theorem C8_stop_leaves_relays_unchanged (clk : nat -> Z) (body : StopBody.t)
    (st : Station) (id : TxId) (t' : Transaction.t) (remaining : option Z)
    (final : Status) (n gpioNumber : Z) :
  fst (serve clk (StopLease body) st)
    = inr (json_stopped (id, t') remaining final) ->
  lineMap n = Some gpioNumber ->
  let st' := snd (serve clk (StopLease body) st) in
  let handle :=
    default (new_MockGpio gpioNumber "out") (gpioInstances (relays st) !! n) in
  let off := snd (turnOffSocket n (relays st)) in
  (exists t,
      transactions (world st) !! id = Some t /\
      transactions (world st') !! id = Some t' /\
      Transaction.socketNumber t' = Transaction.socketNumber t /\
      Transaction.status t' = final /\ final <> InProgress /\
      is_Some (Transaction.actualEndTime t') /\
      relays st' = relays st /\
      driver_log (relays st') = driver_log (relays st) /\
      relay_on (Transaction.socketNumber t) (relays st')
        = relay_on (Transaction.socketNumber t) (relays st)) /\
  fst (turnOffSocket n (relays st)) = inr tt /\
  gpioInstances off !! n = Some (writeSync 0 handle) /\
  value (writeSync 0 handle) = 0 /\
  relay_on n off = false /\
  driver_log off
    = driver_log (relays st)
      ++ (if decide (gpioInstances (relays st) !! n = None)
          then [call_new gpioNumber] else [])
      ++ [call_writeSync (pin handle) 0] /\
  forall m, m <> n -> gpioInstances off !! m = gpioInstances (relays st) !! m.
Proof.
  intros Hres Hn st' handle off. subst st' handle off. split.
  - unfold serve in *. cbn [handler] in *.
    destruct body as [[id0|] status]; [|discriminate Hres].
    rewrite run_stopChargingSession in *.
    destruct (transactions (world st) !! id0) as [t|] eqn:Ht; [|discriminate Hres].
    cbv zeta in *.
    destruct (students (stopped_world clk id0 (finalStatus_of status) (world st) t)
                !! Transaction.rfid t) as [sd|]; [|discriminate Hres].
    cbn [fst snd world relays] in *. injection Hres as <- <- <- <-.
    exists t. split; [exact Ht|]. split.
    { cbn [stopped_world transactions]. apply list_lookup_insert_eq.
      apply lookup_lt_Some in Ht. exact Ht. }
    split; [reflexivity|]. split.
    { cbn [apply_updates Transaction.status]. apply stop_updates_status. }
    split; [apply finalStatus_of_terminal|].
    split; [eexists; reflexivity|]. repeat split.
  - unfold turnOffSocket, relay_on. rewrite Hn. cbn [fst snd].
    split; [reflexivity|].
    rewrite lookup_switch, decide_True by reflexivity.
    split; [reflexivity|]. split; [reflexivity|]. split; [reflexivity|].
    split; [apply driver_log_switch|].
    intros m Hm. rewrite lookup_switch, decide_False by congruence. reflexivity.
Qed.

(** C8 fails on [station_leased]: Alice's lease on socket 1 is stopped with
    success while the relay of socket 1, which was on, stays on. *)
Lemma C8_stop_keeps_socket_energized :
  let stop := StopLease (StopBody.mk (Some 0%nat) (Some "completed")) in
  let '(res, st') := serve clk_250 stop station_leased in
  (exists t, transactions (world station_leased) !! 0%nat = Some t /\
             Transaction.socketNumber t = 1 /\
             Transaction.status t = InProgress) /\
  ~ is_failure res /\
  Transaction.status <$> transactions (world st') !! 0%nat = Some Completed /\
  relay_on 1 (relays station_leased) = true /\
  relay_on 1 (relays st') = true.
Proof.
  vm_compute. split; [eexists; repeat split; reflexivity|].
  split; [intros []|]. repeat split; reflexivity.
Qed.

(** C9. For a valid socket number, [turnOnSocket] leaves the handle of the
    socket, constructed if the socket had none, in the registry with value
    1 after one [writeSync(1)], and [turnOffSocket] leaves it with value 0
    after one [writeSync(0)]; calling either a second time leaves the same
    registry, writes the same value through the same handle and constructs
    nothing. The shutdown hook writes 0 to every managed handle, so that no
    socket is left on. *)
Theorem C9_switching_is_idempotent (n gpioNumber : Z) (st : State) :
  lineMap n = Some gpioNumber ->
  let handle := default (new_MockGpio gpioNumber "out") (gpioInstances st !! n) in
  let created :=
    if decide (gpioInstances st !! n = None) then [call_new gpioNumber] else [] in
  let on1 := snd (turnOnSocket n st) in
  let on2 := snd (turnOnSocket n on1) in
  let off1 := snd (turnOffSocket n st) in
  let off2 := snd (turnOffSocket n off1) in
  (gpioInstances on2 = gpioInstances on1 /\ relay_on n on1 = true) /\
  (gpioInstances off2 = gpioInstances off1 /\ relay_on n off1 = false) /\
  (handles_created gpioNumber on2 = handles_created gpioNumber on1 /\
   handles_created gpioNumber off2 = handles_created gpioNumber off1 /\
   (gpioInstances st !! n = None ->
      handles_created gpioNumber on1 = S (handles_created gpioNumber st)) /\
   (is_Some (gpioInstances st !! n) ->
      handles_created gpioNumber on1 = handles_created gpioNumber st)) /\
  (forall m, relay_on m (on_SIGINT st) = false) /\
  (forall m g, gpioInstances st !! m = Some g ->
      gpioInstances (on_SIGINT st) !! m = Some (writeSync 0 g) /\
      In (call_writeSync (pin g) 0) (driver_log (on_SIGINT st))) /\
  (fst (turnOnSocket n st) = inr tt /\
   gpioInstances on1 !! n = Some (writeSync 1 handle) /\
   value (writeSync 1 handle) = 1 /\
   driver_log on1 = driver_log st ++ created ++ [call_writeSync (pin handle) 1] /\
   driver_log on2 = driver_log on1 ++ [call_writeSync (pin handle) 1]) /\
  (fst (turnOffSocket n st) = inr tt /\
   gpioInstances off1 !! n = Some (writeSync 0 handle) /\
   value (writeSync 0 handle) = 0 /\
   driver_log off1 = driver_log st ++ created ++ [call_writeSync (pin handle) 0] /\
   driver_log off2 = driver_log off1 ++ [call_writeSync (pin handle) 0]) /\
  (gpioInstances st !! n = None ->
     handles_created gpioNumber off1 = S (handles_created gpioNumber st)) /\
  (is_Some (gpioInstances st !! n) ->
     handles_created gpioNumber off1 = handles_created gpioNumber st) /\
  (forall m, m <> n ->
     gpioInstances on1 !! m = gpioInstances st !! m /\
     gpioInstances off1 !! m = gpioInstances st !! m).
Proof.
  intros Hn handle created on1 on2 off1 off2.
  subst on2 off2. subst on1 off1. subst handle created.
  unfold turnOnSocket, turnOffSocket. rewrite !Hn. cbn [fst snd].
  assert (Hsome : forall v,
    gpioInstances (write_instance n v (ensure_instance n gpioNumber st)) !! n <> None).
  { intros v. rewrite lookup_switch, decide_True by reflexivity. discriminate. }
  assert (Hlog2 : forall v,
    driver_log (write_instance n v (ensure_instance n gpioNumber
                  (write_instance n v (ensure_instance n gpioNumber st))))
    = driver_log (write_instance n v (ensure_instance n gpioNumber st))
      ++ [call_writeSync
            (pin (default (new_MockGpio gpioNumber "out") (gpioInstances st !! n)))
            v]).
  { intros v. rewrite (driver_log_switch n gpioNumber v (write_instance n v _)).
    rewrite decide_False by apply Hsome.
    rewrite lookup_switch, decide_True by reflexivity. reflexivity. }
  split; [|split; [|split; [|split; [|split; [|split; [|split; [|split; [|split]]]]]]]].
  - split; [apply switch_twice|].
    unfold relay_on. rewrite lookup_switch, decide_True by reflexivity. reflexivity.
  - split; [apply switch_twice|].
    unfold relay_on. rewrite lookup_switch, decide_True by reflexivity. reflexivity.
  - split; [|split; [|split]].
    + rewrite (handles_created_switch n gpioNumber 1 (write_instance n 1 _)).
      rewrite decide_False by apply Hsome. lia.
    + rewrite (handles_created_switch n gpioNumber 0 (write_instance n 0 _)).
      rewrite decide_False by apply Hsome. lia.
    + intros Hnone. rewrite handles_created_switch, decide_True by exact Hnone. lia.
    + intros [g Hg]. rewrite handles_created_switch, decide_False by congruence. lia.
  - intros m. unfold relay_on, on_SIGINT. cbn [gpioInstances].
    rewrite lookup_fmap. destruct (gpioInstances st !! m); reflexivity.
  - intros m g Hg. unfold on_SIGINT. cbn [gpioInstances driver_log]. split.
    + rewrite lookup_fmap, Hg. reflexivity.
    + apply in_or_app. right. apply in_flat_map. exists (m, g). split.
      * apply elem_of_entries. exact Hg.
      * left. reflexivity.
  - split; [reflexivity|].
    split; [rewrite lookup_switch, decide_True by reflexivity; reflexivity|].
    split; [reflexivity|]. split; [apply driver_log_switch|apply Hlog2].
  - split; [reflexivity|].
    split; [rewrite lookup_switch, decide_True by reflexivity; reflexivity|].
    split; [reflexivity|]. split; [apply driver_log_switch|apply Hlog2].
  - intros Hnone. rewrite handles_created_switch, decide_True by exact Hnone. lia.
  - intros [g Hg]. rewrite handles_created_switch, decide_False by congruence. lia.
  - intros m Hm. rewrite !lookup_switch, !decide_False by congruence.
    split; reflexivity.
Qed.

End RelayClaims.

(** ** The theorems at concrete states *)

(** C4 fails on [w_done]: Alice's lease is completed; a second stop, asking
    for a cancellation, is answered with a success and rewrites the record,
    whose status becomes cancelled. *)
Lemma C4_second_stop_is_accepted :
  let stop := StopBody.mk (Some 0%nat) (Some "cancelled") in
  let '(res, w') := run clk_250 (stopChargingSession stop) w_done in
  (exists t, transactions w_done !! 0%nat = Some t /\
             Transaction.status t = Completed) /\
  ~ is_failure res /\
  Transaction.status <$> transactions w' !! 0%nat = Some Cancelled /\
  transactions w' <> transactions w_done.
Proof.
  vm_compute. split; [eexists; split; reflexivity|].
  split; [intros []|]. split; [reflexivity|]. discriminate.
Qed.

(** Alice cancels her 10-point lease one second after its start: 9 points
    come back. *)
Lemma C1_cancel_refund_witness :
  transactions w_leased !! 0%nat = Some lease_of_alice /\
  exists t' w',
    run clk_250 (completeTransaction 0%nat Cancelled) w_leased = (inr (0%nat, t'), w') /\
    balance w' "RF01" = balance w_leased "RF01" + 9 /\
    Transaction.pointsRefunded t' = Some 9.
Proof.
  split; [vm_compute; reflexivity|].
  destruct (C1_cancel_refund clk_250 w_leased 0%nat lease_of_alice alice_debited 10 1)
    as (_ & _ & _ & _ & _ & _ & t' & w' & Hrun & Hbal & _ & _ & _ & Hpr);
    [vm_compute; reflexivity | reflexivity | vm_compute; reflexivity
    | reflexivity | vm_compute; reflexivity | lia | lia |].
  exists t', w'. split; [exact Hrun|]. split; [exact Hbal|].
  apply Hpr. vm_compute. reflexivity.
Defined.

(** The store after Alice's start request is reached in turn. *)
Lemma one_active_session_when_handled_in_turn_example :
  reachable_in_turn clk_250 w_leased /\
  forall rfid : string,
    (length (filter (fun t => Transaction.rfid t = rfid /\
                              Transaction.status t = InProgress)
                    (transactions w_leased)) <= 1)%nat.
Proof.
  assert (H : reachable_in_turn clk_250 w_leased)
    by exact (reachable_serve clk_250 (StartLease req_start10) w_fresh
                (reachable_init clk_250 _ 0%nat)).
  split; [exact H|]. exact (one_active_session_when_handled_in_turn clk_250 w_leased H).
Defined.

Lemma no_session_no_active rfid w :
  transactions w = [] -> ~ has_active_session rfid w.
Proof. intros Hnil (id & t & Hl & _). rewrite Hnil in Hl. discriminate. Qed.

(** Alice's first start request passes the three checks and the store
    accepts her Session. *)
Lemma C7_start_checks_in_order_witness :
  valid_start "RF01" 10 "Universal Charger" 1 /\
  fst (run clk_250 (startChargingSession req_start10) w_fresh)
  = inr (json_started 0%nat (Some 90) 1200).
Proof.
  assert (Hv : valid_start "RF01" 10 "Universal Charger" 1)
    by (repeat split; discriminate).
  split; [exact Hv|].
  destruct (C7_start_checks_in_order clk_250 w_fresh "RF01" 10 "Universal Charger" 1 Hv)
    as (_ & _ & _ & Hok).
  apply Hok.
  - vm_compute. discriminate.
  - apply no_session_no_active. reflexivity.
  - vm_compute. discriminate.
  - vm_compute. split; [discriminate|reflexivity].
Defined.

(** Bob's account has no [points]; cancelling his 10-point lease after
    125 s stores the 8 refunded points as his balance. *)
Lemma C10_absent_points_count_as_zero_witness :
  students w_nobody_leased !! "RF02" = Some nobody /\
  Student.points nobody = None /\
  students (snd (run clk_125s (completeTransaction 0%nat Cancelled) w_nobody_leased))
    !! "RF02" = Some (set_points 8 nobody).
Proof.
  assert (Hsd : students w_nobody_leased !! "RF02" = Some nobody)
    by (vm_compute; reflexivity).
  split; [exact Hsd|]. split; [reflexivity|].
  destruct (C10_absent_points_count_as_zero clk_125s w_nobody_leased "RF02" nobody
              Hsd eq_refl) as (_ & _ & Hcredit).
  apply (Hcredit 0%nat lease_of_nobody 8);
    [reflexivity | reflexivity | reflexivity | vm_compute; reflexivity | lia].
Defined.

(** Three start requests of Alice, one after the other. *)
Lemma starts_handled_in_turn_example :
  exists st',
    serve_all clk_250
      [StartLease req_start10; StartLease req_start10; StartLease req_start5]
      station_fresh
    = ([inr (json_started 0%nat (Some 90) 1200); inr Conflict; inr Conflict], st') /\
    balance (world st') "RF01" = balance w_fresh "RF01" - 10.
Proof.
  destruct (starts_handled_in_turn clk_250 station_fresh "RF01" alice 10
              "Universal Charger" 1 [req_start10; req_start5])
    as (st' & Hrun & Hbal & _).
  - repeat split; discriminate.
  - vm_compute. reflexivity.
  - vm_compute. discriminate.
  - apply no_session_no_active. reflexivity.
  - vm_compute. split; [discriminate|reflexivity].
  - repeat constructor.
    + exists 10, "Universal Charger", 1. split; [reflexivity|]. repeat split; discriminate.
    + exists 5, "Own Charger", 2. split; [reflexivity|]. repeat split; discriminate.
  - exists st'. split; [exact Hrun|exact Hbal].
Defined.

(** A second stop of Alice's completed lease writes no account. *)
Lemma C4_stop_on_terminal_session_witness :
  transactions w_done !! 0%nat = Some lease_completed /\
  terminal lease_completed /\
  exists res w',
    run clk_250 (stopChargingSession (StopBody.mk (Some 0%nat) (Some "cancelled")))
      w_done = (res, w') /\
    students w' = students w_done.
Proof.
  assert (Ht : transactions w_done !! 0%nat = Some lease_completed)
    by (vm_compute; reflexivity).
  assert (Hterm : terminal lease_completed) by (intros H; discriminate H).
  split; [exact Ht|]. split; [exact Hterm|].
  destruct (C4_stop_on_terminal_session clk_250 w_done 0%nat lease_completed
              (Some "cancelled") Ht Hterm) as (res & w' & Hrun & Hst & _).
  exists res, w'. split; [exact Hrun|exact Hst].
Defined.

(** Stopping Alice's lease succeeds and leaves the relays; [turnOffSocket 1]
    writes 0 through the handle of socket 1. *)
Lemma C8_stop_leaves_relays_unchanged_witness :
  Gpio.lineMap 1 = Some 73 /\
  relays (snd (serve clk_250 (StopLease (StopBody.mk (Some 0%nat) (Some "completed")))
                 station_leased))
  = relays station_leased /\
  Gpio.value <$> Gpio.gpioInstances
                   (snd (Gpio.turnOffSocket 1 (relays station_leased))) !! 1
  = Some 0.
Proof.
  split; [reflexivity|].
  destruct (C8_stop_leaves_relays_unchanged clk_250
              (StopBody.mk (Some 0%nat) (Some "completed")) station_leased
              0%nat lease_completed (Some 90) Completed 1 73)
    as ((t & _ & _ & _ & _ & _ & _ & Hsame & _) & _ & Hoff & _);
    [vm_compute; reflexivity|reflexivity|].
  split; [exact Hsame|]. rewrite Hoff. reflexivity.
Defined.

(** Socket 1 switched on twice from an empty registry: one handle; switched
    off, its handle holds 0. *)
Lemma C9_switching_is_idempotent_witness :
  Gpio.lineMap 1 = Some 73 /\
  Gpio.gpioInstances (snd (Gpio.turnOnSocket 1 relays_socket1_on))
  = Gpio.gpioInstances relays_socket1_on /\
  Gpio.handles_created 73 (snd (Gpio.turnOnSocket 1 relays_socket1_on)) = 1%nat /\
  Gpio.relay_on 1 (Gpio.on_SIGINT relays_socket1_on) = false /\
  Gpio.value <$> Gpio.gpioInstances (snd (Gpio.turnOffSocket 1 relays_socket1_on)) !! 1
  = Some 0.
Proof.
  split; [reflexivity|].
  destruct (C9_switching_is_idempotent 1 73 (Gpio.mkState ∅ []) eq_refl)
    as ((Hon & _) & _ & (Hh & _ & Hnew & _) & _).
  destruct (C9_switching_is_idempotent 1 73 relays_socket1_on eq_refl)
    as (_ & _ & _ & Hoff & _ & _ & (_ & Hzero & _) & _).
  split; [exact Hon|]. split; [|split; [apply Hoff|rewrite Hzero; reflexivity]].
  change (Gpio.handles_created 73 (snd (Gpio.turnOnSocket 1 relays_socket1_on)))
    with (Gpio.handles_created 73
            (snd (Gpio.turnOnSocket 1 (snd (Gpio.turnOnSocket 1 (Gpio.mkState ∅ [])))))).
  rewrite Hh. apply (Hnew eq_refl).
Defined.

(** * Further properties of the code *)

(** ** Start requests: what they change *)

(** The two outcomes of a start request: an error that leaves the accounts
    and the Sessions as they were, or a success that has passed the checks
    and leaves [started_world]. *)
Lemma start_outcome clk body w :
  let res := fst (run clk (startChargingSession body) w) in
  let w' := snd (run clk (startChargingSession body) w) in
  (exists status error, res = inr (json_error status error) /\
     students w' = students w /\ transactions w' = transactions w) \/
  (exists rfid p sT sN sd,
      body = start_body rfid p sT sN /\ valid_start rfid p sT sN /\
      students w !! rfid = Some sd /\ active_sessions rfid w = [] /\
      p <= or0 (Student.points sd) /\ end_in_range clk w p /\
      res = inr (json_started (length (transactions w))
                   (Some (or0 (Student.points sd) - p)) (p * 120)) /\
      w' = started_world clk rfid p sT sN sd w).
Proof.
  assert (Hmal : forall w0 : World,
    (exists status error,
        @inr string _ MalformedRequest = inr (json_error status error) /\
        students w0 = students w0 /\ transactions w0 = transactions w0))
    by (intros w0; eexists _, _; repeat split; reflexivity).
  destruct body as [[r|] [p|] [sT|] [sN|]]; try (left; apply Hmal).
  destruct (String.eqb r "") eqn:Hr;
    [left; unfold startChargingSession; cbn; rewrite Hr; apply Hmal|].
  destruct (p =? 0) eqn:Hp;
    [left; unfold startChargingSession; cbn; rewrite Hr, Hp; apply Hmal|].
  destruct (String.eqb sT "") eqn:Ht;
    [left; unfold startChargingSession; cbn; rewrite Hr, Hp, Ht; apply Hmal|].
  destruct (sN =? 0) eqn:Hn;
    [left; unfold startChargingSession; cbn; rewrite Hr, Hp, Ht, Hn; apply Hmal|].
  assert (Hv : valid_start r p sT sN).
  { apply String.eqb_neq in Hr, Ht. apply Z.eqb_neq in Hp, Hn. repeat split; assumption. }
  change (StartBody.mk (Some r) (Some p) (Some sT) (Some sN))
    with (start_body r p sT sN).
  cbv zeta. rewrite (run_startChargingSession clk _ _ _ _ w Hv).
  destruct (students w !! r) as [sd|] eqn:Hsd;
    [|left; eexists _, _; repeat split; reflexivity].
  destruct (decide (active_sessions r w = [])) as [Hna|Ha];
    [|left; eexists _, _; repeat split; reflexivity].
  destruct (or0 (Student.points sd) <? p) eqn:Hlt;
    [left; eexists _, _; repeat split; reflexivity|].
  apply Z.ltb_ge in Hlt.
  destruct (decide (end_in_range clk w p)) as [Hin|Hout];
    [|left; eexists _, _; repeat split; reflexivity].
  right. exists r, p, sT, sN, sd.
  split; [reflexivity|]. split; [exact Hv|]. split; [exact Hsd|].
  split; [exact Hna|]. split; [exact Hlt|]. split; [exact Hin|].
  split; reflexivity.
Qed.

(** X1. A start request that is answered with an error has written nothing:
    the accounts and the Sessions are those before the request. *)
Theorem start_error_writes_nothing (clk : nat -> Z) (body : StartBody.t)
    (w : World) (status : Z) (error : string) :
  fst (run clk (startChargingSession body) w) = inr (json_error status error) ->
  students (snd (run clk (startChargingSession body) w)) = students w /\
  transactions (snd (run clk (startChargingSession body) w)) = transactions w.
Proof.
  intros Hres.
  destruct (start_outcome clk body w)
    as [(s & e & _ & Hs & Ht)|(r & p & sT & sN & sd & _ & _ & _ & _ & _ & _ & Hok & _)].
  - split; assumption.
  - rewrite Hok in Hres. discriminate.
Qed.

(** X2. A start request that is answered with a success has passed the
    checks (no in-progress Session of the holder, balance at least
    [pointsToSpend]) and has done exactly this: appended one in-progress
    Session of the holder for [pointsToSpend] points, whose identifier is
    returned, and debited [pointsToSpend] from the holder's account. The
    existing Sessions and the other accounts are untouched. *)
Theorem start_success_effect (clk : nat -> Z) (body : StartBody.t) (w : World)
    (id : TxId) (remaining : option Z) (duration : Z) :
  fst (run clk (startChargingSession body) w)
    = inr (json_started id remaining duration) ->
  let w' := snd (run clk (startChargingSession body) w) in
  exists rfid p t,
    StartBody.rfid body = Some rfid /\ StartBody.pointsToSpend body = Some p /\
    ~ has_active_session rfid w /\ p <= balance w rfid /\
    id = length (transactions w) /\
    transactions w' = transactions w ++ [t] /\
    Transaction.rfid t = rfid /\ Transaction.pointsUsed t = p /\
    Transaction.status t = InProgress /\
    Transaction.remainingPoints t = balance w rfid - p /\
    balance w' rfid = balance w rfid - p /\
    remaining = Some (balance w' rfid) /\
    duration = p * 120 /\
    forall other, other <> rfid -> students w' !! other = students w !! other.
Proof.
  intros Hres w'. subst w'.
  destruct (start_outcome clk body w)
    as [(s & e & Herr & _)|(r & p & sT & sN & sd & -> & _ & Hsd & Hna & Hle & _ & Hok & ->)].
  { rewrite Herr in Hres. discriminate. }
  rewrite Hok in Hres. injection Hres as <- <- <-.
  exists r, p, (started_session clk r p sT sN sd w).
  assert (Hb : balance w r = or0 (Student.points sd)) by (apply balance_lookup, Hsd).
  assert (Hb' : balance (started_world clk r p sT sN sd w) r
                = or0 (Student.points sd) - p).
  { unfold balance, started_world. cbn [students]. rewrite lookup_insert_eq. reflexivity. }
  rewrite Hb, Hb'. repeat split; try reflexivity; try assumption.
  - rewrite has_active_session_iff. intros H. apply H, Hna.
  - intros other Hne. unfold started_world. cbn [students].
    apply lookup_insert_ne. congruence.
Qed.

(** ** Stop requests: what they change *)

(** X3. A stop request for an identifier that no Session has is answered
    with the error "Transaction not found" and changes nothing, and so is a
    request without identifier, with "Transaction ID is required". *)
Theorem stop_unknown_session (clk : nat -> Z) (w : World) (id : TxId)
    (status : option string) :
  transactions w !! id = None ->
  run clk (stopChargingSession (StopBody.mk (Some id) status)) w
    = (inr (json_error 500 "Transaction not found"), w) /\
  run clk (stopChargingSession (StopBody.mk None status)) w
    = (inr (json_error 400 "Transaction ID is required"), w).
Proof.
  intros Hnone. split; [|reflexivity].
  rewrite run_stopChargingSession, Hnone. reflexivity.
Qed.

Lemma finalStatus_of_not_cancelled status :
  status <> Some "cancelled" -> finalStatus_of status = Completed.
Proof.
  intros Hs. destruct status as [s|]; [|reflexivity]. unfold finalStatus_of.
  destruct (String.eqb s "cancelled") eqn:He; [|reflexivity].
  apply String.eqb_eq in He. congruence.
Qed.

(** X4. Only a cancellation pays back: a stop request whose status is not
    "cancelled" leaves every account as it was, whatever the Session. *)
Theorem stop_completed_keeps_accounts (clk : nat -> Z) (w : World)
    (body : StopBody.t) :
  StopBody.status body <> Some "cancelled" ->
  students (snd (run clk (stopChargingSession body) w)) = students w.
Proof.
  intros Hs. destruct (stop_cases clk body w) as [->|(id & t & _ & _ & ->)];
    [reflexivity|].
  rewrite (finalStatus_of_not_cancelled _ Hs).
  unfold stopped_world, stop_students, refunds. cbn [students].
  rewrite bool_decide_eq_false_2 by (intros [H _]; discriminate H).
  destruct (students w !! Transaction.rfid t); reflexivity.
Qed.

Lemma apply_updates_same_lease u t : same_lease t (apply_updates u t).
Proof. repeat split. Qed.

(** X5. A stop request rewrites at most the Session it names and the account
    of that Session's holder: no Session is added or removed, every other
    Session and every other account is untouched, and in the Session it
    rewrites the fields fixed at the start (holder, points reserved, socket,
    start and expected end) stay as they were. *)
Theorem stop_frame (clk : nat -> Z) (w : World) (id : TxId)
    (status : option string) :
  let w' := snd (run clk (stopChargingSession (StopBody.mk (Some id) status)) w) in
  length (transactions w') = length (transactions w) /\
  (forall id', id' <> id -> transactions w' !! id' = transactions w !! id') /\
  (forall t, transactions w !! id = Some t ->
     exists t', transactions w' !! id = Some t' /\ same_lease t t') /\
  (forall rfid,
     (forall t, transactions w !! id = Some t -> Transaction.rfid t <> rfid) ->
     students w' !! rfid = students w !! rfid).
Proof.
  intros w'. subst w'.
  destruct (stop_cases clk (StopBody.mk (Some id) status) w)
    as [->|(id0 & t & [= <-] & Ht & ->)].
  - split; [reflexivity|]. split; [reflexivity|]. split; [|reflexivity].
    intros t Ht. exists t. split; [exact Ht|]. repeat split.
  - cbn [StopBody.status stopped_world transactions students].
    split; [apply length_insert|]. split; [|split].
    + intros id' Hne. apply list_lookup_insert_ne. congruence.
    + intros t0 Ht0. rewrite Ht in Ht0. injection Ht0 as <-.
      eexists. split; [|apply apply_updates_same_lease].
      apply list_lookup_insert_eq. apply lookup_lt_Some in Ht. exact Ht.
    + intros rfid Hother. specialize (Hother t Ht). unfold stop_students.
      destruct (students w !! Transaction.rfid t); [|reflexivity].
      destruct (refunds clk (finalStatus_of status) w t); [|reflexivity].
      apply lookup_insert_ne. exact Hother.
Qed.

(** X6. A stop request for an existing Session always finalizes the record,
    whatever the status asked for and whatever the record's state: the
    stored status is "cancelled" if that was asked and "completed"
    otherwise, never "in-progress", and the end time and the duration in
    whole seconds since the start are set from the clock. *)
Theorem stop_finalizes (clk : nat -> Z) (w : World) (id : TxId)
    (t : Transaction.t) (status : option string) :
  transactions w !! id = Some t ->
  let w' := snd (run clk (stopChargingSession (StopBody.mk (Some id) status)) w) in
  exists t',
    transactions w' !! id = Some t' /\
    Transaction.status t' = (if decide (status = Some "cancelled")
                             then Cancelled else Completed) /\
    Transaction.status t' <> InProgress /\
    Transaction.actualEndTime t' = Some (Timestamp_fromMillis (clk (ticks w))) /\
    Transaction.duration t'
      = Some (clk (ticks w) / 1000 - seconds (Transaction.startTime t)).
Proof.
  intros Ht w'. subst w'.
  destruct (stop_cases clk (StopBody.mk (Some id) status) w)
    as [Hsame|(id0 & t0 & [= <-] & Ht0 & ->)].
  { exfalso. rewrite run_stopChargingSession, Ht in Hsame. cbv zeta in Hsame.
    assert (Hticks : ticks (stopped_world clk id (finalStatus_of status) w t)
                     = ticks w).
    { destruct (students _ !! Transaction.rfid t); cbn [snd] in Hsame;
        rewrite Hsame; reflexivity. }
    cbn in Hticks. lia. }
  rewrite Ht in Ht0. injection Ht0 as <-.
  cbn [StopBody.status stopped_world transactions].
  eexists. split; [apply list_lookup_insert_eq; apply lookup_lt_Some in Ht; exact Ht|].
  cbn [apply_updates Transaction.status Transaction.actualEndTime Transaction.duration].
  rewrite stop_updates_status.
  assert (Hu : u_actualEndTime (stop_updates clk (finalStatus_of status) w t)
               = Timestamp_fromMillis (clk (ticks w)) /\
               u_duration (stop_updates clk (finalStatus_of status) w t)
               = clk (ticks w) / 1000 - seconds (Transaction.startTime t)).
  { unfold stop_updates. destruct (students w !! Transaction.rfid t);
      [destruct (refunds clk (finalStatus_of status) w t)|]; split; reflexivity. }
  destruct Hu as [-> ->].
  split; [|split; [apply finalStatus_of_terminal|split; reflexivity]].
  destruct (decide (status = Some "cancelled")) as [->|Hne]; [reflexivity|].
  apply finalStatus_of_not_cancelled, Hne.
Qed.

(** X7. When the account of a Session's holder no longer exists, a stop
    request still finalizes the record and then fails on reading the
    balance: the answer is an error 500 although the Session is stopped. *)
Theorem stop_without_account (clk : nat -> Z) (w : World) (id : TxId)
    (t : Transaction.t) (status : option string) :
  transactions w !! id = Some t ->
  students w !! Transaction.rfid t = None ->
  let '(res, w') := run clk (stopChargingSession (StopBody.mk (Some id) status)) w in
  res = inr (json_error 500 "Cannot read properties of undefined (reading 'points')") /\
  students w' = students w /\
  exists t', transactions w' !! id = Some t' /\
             Transaction.status t' = finalStatus_of status /\
             Transaction.pointsRefunded t' = Transaction.pointsRefunded t.
Proof.
  intros Ht Hnone. rewrite run_stopChargingSession, Ht. cbv zeta.
  assert (Hs : stop_students clk (finalStatus_of status) w t = students w)
    by (unfold stop_students; rewrite Hnone; reflexivity).
  assert (Hu : stop_updates clk (finalStatus_of status) w t
               = plain_updates clk (finalStatus_of status) w t)
    by (unfold stop_updates; rewrite Hnone; reflexivity).
  unfold stopped_world. cbn [students]. rewrite Hs, Hu, Hnone.
  split; [reflexivity|]. split; [reflexivity|].
  cbn [transactions]. eexists.
  split; [apply list_lookup_insert_eq; apply lookup_lt_Some in Ht; exact Ht|].
  split; reflexivity.
Qed.

(** ** What every request preserves *)

Lemma stop_students_nonneg clk status w t :
  balances_nonneg w ->
  forall rfid sd, stop_students clk status w t !! rfid = Some sd ->
                  0 <= or0 (Student.points sd).
Proof.
  intros Hinv rfid sd. unfold stop_students.
  destruct (students w !! Transaction.rfid t) as [sd0|] eqn:Hsd0; [|apply Hinv].
  destruct (refunds clk status w t) eqn:Hrf; [|apply Hinv].
  rewrite lookup_insert. destruct (decide (Transaction.rfid t = rfid)) as [_|_];
    [|apply Hinv].
  intros [= <-]. unfold set_points. cbn [Student.points or0].
  unfold refunds in Hrf. apply andb_true_iff in Hrf as [_ Hpos].
  apply Z.ltb_lt in Hpos. specialize (Hinv _ _ Hsd0).
  change (u_duration (plain_updates clk status w t))
    with (clk (ticks w) / 1000 - seconds (Transaction.startTime t)) in Hpos. lia.
Qed.

(** X8. No request makes a balance negative: if every account has a
    non-negative balance before a start or stop request, every account has
    one after it, whatever the request asks for. *)
Theorem requests_keep_balances_nonneg (clk : nat -> Z) (r : Request) (w : World) :
  balances_nonneg w ->
  balances_nonneg (snd (run clk (handler r) w)).
Proof.
  intros Hinv. destruct r as [body|body]; cbn [handler].
  - destruct (start_outcome clk body w)
      as [(s & e & _ & Hs & _)|(rf & p & sT & sN & sd & _ & _ & Hsd & _ & Hle & _ & _ & ->)].
    + intros rfid sd. rewrite Hs. apply Hinv.
    + intros rfid sd'. unfold started_world. cbn [students].
      rewrite lookup_insert. destruct (decide (rf = rfid)) as [_|_]; [|apply Hinv].
      intros [= <-]. unfold set_points_lastUsed. cbn [Student.points or0]. lia.
  - destruct (stop_cases clk body w) as [->|(id & t & _ & _ & ->)]; [exact Hinv|].
    intros rfid sd. cbn [stopped_world students]. apply stop_students_nonneg, Hinv.
Qed.

(** X9. Sessions are never deleted and never reopened: after any start or
    stop request, every Session that existed still exists under its
    identifier with the holder, points reserved, socket, start and expected
    end it was created with, and a Session that was completed or cancelled
    is still completed or cancelled. *)
Theorem requests_keep_sessions (clk : nat -> Z) (r : Request) (w : World)
    (id : TxId) (t : Transaction.t) :
  transactions w !! id = Some t ->
  exists t',
    transactions (snd (run clk (handler r) w)) !! id = Some t' /\
    same_lease t t' /\
    (terminal t -> terminal t').
Proof.
  intros Ht. destruct r as [body|body]; cbn [handler].
  - destruct (start_outcome clk body w)
      as [(s & e & _ & _ & Hs)|(rf & p & sT & sN & sd & _ & _ & _ & _ & _ & _ & _ & ->)].
    + exists t. rewrite Hs. split; [exact Ht|]. split; [repeat split|tauto].
    + exists t. unfold started_world. cbn [transactions].
      split; [apply lookup_app_l_Some, Ht|]. split; [repeat split|tauto].
  - destruct (stop_cases clk body w) as [->|(id0 & t0 & _ & Ht0 & ->)].
    + exists t. split; [exact Ht|]. split; [repeat split|tauto].
    + cbn [stopped_world transactions].
      destruct (decide (id0 = id)) as [->|Hne].
      * rewrite Ht in Ht0. injection Ht0 as <-. eexists.
        split; [apply list_lookup_insert_eq; apply lookup_lt_Some in Ht; exact Ht|].
        split; [apply apply_updates_same_lease|].
        intros _. unfold terminal. cbn [apply_updates Transaction.status].
        rewrite stop_updates_status. apply finalStatus_of_terminal.
      * exists t. rewrite list_lookup_insert_ne by exact Hne.
        split; [exact Ht|]. split; [repeat split|tauto].
Qed.

(** ** A lease from start to cancellation *)

(** X10. A lease that is started and then cancelled costs the points used:
    after a start for [p > 0] points that is answered with a success and the
    cancellation of the new Session [e >= 0] seconds after its start, the
    holder's balance is the balance before the start less
    [ceil(min(e, p*120)/120)], so between the balance less [p] and the
    balance before, and the stop answers with that balance. *)
Theorem start_then_cancel (clk : nat -> Z) (w : World) (rfid : string)
    (p : Z) (socketType : string) (socketNumber : Z) (e : Z)
    (id : TxId) (remaining : option Z) (duration : Z) :
  fst (run clk (startChargingSession
                  (start_body rfid p socketType socketNumber)) w)
    = inr (json_started id remaining duration) ->
  0 < p ->
  e = clk (5 + ticks w)%nat / 1000 - clk (1 + ticks w)%nat / 1000 ->
  0 <= e ->
  let start := startChargingSession (start_body rfid p socketType socketNumber) in
  let stop := stopChargingSession (StopBody.mk (Some id) (Some "cancelled")) in
  let w1 := snd (run clk start w) in
  let '(res, w2) := run clk stop w1 in
  let used := ceil_div (Z.min e (p * 120)) 120 in
  balance w1 rfid = balance w rfid - p /\
  balance w2 rfid = balance w rfid - used /\
  balance w rfid - p <= balance w2 rfid <= balance w rfid /\
  exists t', res = inr (json_stopped (id, t') (Some (balance w2 rfid)) Cancelled) /\
             Transaction.duration t' = Some e.
Proof.
  intros Hok Hpos He Hnn start stop w1. subst start stop w1.
  destruct (start_outcome clk (start_body rfid p socketType socketNumber) w)
    as [(s0 & e0 & Herr & _)
       |(r & p0 & sT & sN & sd & [= <- <- <- <-] & Hv & Hsd & _ & Hle & _ & Hres & Hw1)].
  { rewrite Herr in Hok. discriminate. }
  rewrite Hres in Hok. injection Hok as <- _ _. rewrite Hw1. clear Hres Hw1.
  rewrite (balance_lookup _ _ _ Hsd) in *.
  set (w1 := started_world clk rfid p socketType socketNumber sd w).
  set (t := started_session clk rfid p socketType socketNumber sd w).
  set (sd1 := set_points_lastUsed (or0 (Student.points sd) - p)
                (Timestamp_fromMillis (clk (S (S (S (S (ticks w))))))) sd).
  assert (Ht : transactions w1 !! length (transactions w) = Some t).
  { unfold w1, started_world. cbn [transactions].
    rewrite lookup_app_r by lia. rewrite Nat.sub_diag. reflexivity. }
  assert (Hsd1 : students w1 !! rfid = Some sd1).
  { unfold w1, started_world. cbn [students]. apply lookup_insert_eq. }
  rewrite run_stopChargingSession. unfold TxId in *. rewrite Ht. cbv zeta.
  change (finalStatus_of (Some "cancelled")) with Cancelled.
  assert (Hdur : u_duration (plain_updates clk Cancelled w1 t) = e)
    by (rewrite He; reflexivity).
  pose proof (ceil_div_bounds (Z.min e (p * 120)) p ltac:(lia)) as Hused.
  assert (Hrf : refundPoints p e = p - ceil_div (Z.min e (p * 120)) 120)
    by reflexivity.
  assert (Hl : students (stopped_world clk (length (transactions w)) Cancelled w1 t)
                 !! rfid
               = Some (if refunds clk Cancelled w1 t
                       then set_points (or0 (Student.points sd) - p + refundPoints p e) sd1
                       else sd1)).
  { unfold stopped_world. cbn [students].
    change rfid with (Transaction.rfid t) at 1.
    rewrite stop_students_lookup. change (Transaction.rfid t) with rfid.
    rewrite Hsd1, Hdur. destruct (refunds clk Cancelled w1 t); reflexivity. }
  change (Transaction.rfid t) with rfid. rewrite Hl.
  assert (Hcases : refunds clk Cancelled w1 t = (0 <? refundPoints p e)).
  { unfold refunds. rewrite Hdur.
    rewrite bool_decide_eq_true_2 by (split; reflexivity). reflexivity. }
  assert (Hpts : Student.points (if refunds clk Cancelled w1 t
                   then set_points (or0 (Student.points sd) - p + refundPoints p e) sd1
                   else sd1)
                 = Some (or0 (Student.points sd) - ceil_div (Z.min e (p * 120)) 120)).
  { rewrite Hcases. destruct (0 <? refundPoints p e) eqn:Hz.
    - unfold set_points. cbn [Student.points]. f_equal. lia.
    - apply Z.ltb_ge in Hz. unfold sd1, set_points_lastUsed. cbn [Student.points].
      f_equal. lia. }
  assert (Hb1 : balance w1 rfid = or0 (Student.points sd) - p)
    by (unfold balance; rewrite Hsd1; reflexivity).
  assert (Hb2 : balance (stopped_world clk (length (transactions w)) Cancelled w1 t) rfid
                = or0 (Student.points sd) - ceil_div (Z.min e (p * 120)) 120)
    by (unfold balance; rewrite Hl; cbn [mbind option_bind]; rewrite Hpts; reflexivity).
  rewrite Hb1, Hb2, Hpts.
  split; [reflexivity|]. split; [reflexivity|]. split; [lia|].
  eexists. split; [reflexivity|].
  cbn [apply_updates Transaction.duration]. f_equal.
  unfold stop_updates. change (Transaction.rfid t) with rfid. rewrite Hsd1.
  destruct (refunds clk Cancelled w1 t); exact Hdur.
Qed.

(** ** The active lease of a holder *)

Lemma elem_of_query_active r (txs : list Transaction.t) (d : TxId * Transaction.t) :
  d ∈ query_active r txs <-> txs !! fst d = Some (snd d) /\ is_active r (snd d).
Proof.
  unfold query_active. rewrite list_elem_of_filter, elem_of_lookup_imap. split.
  - intros [Ha (i & t & -> & Hl)]. split; assumption.
  - intros [Hl Ha]. split; [exact Ha|]. exists (fst d), (snd d).
    split; [destruct d; reflexivity|exact Hl].
Qed.

(** The loop of [getActiveTransaction] ends on an element of the snapshot
    that no other is newer than. *)
Lemma latest_doc_spec (docs : list (TxId * Transaction.t)) first :
  let latest :=
    fold_left (fun latestDoc doc =>
                 if createdAt_seconds latestDoc <? createdAt_seconds doc
                 then doc else latestDoc) docs first in
  (latest = first \/ latest ∈ docs) /\
  createdAt_seconds first <= createdAt_seconds latest /\
  forall d, d ∈ docs -> createdAt_seconds d <= createdAt_seconds latest.
Proof.
  revert first. induction docs as [|x docs IH]; intros first; cbn [fold_left].
  - split; [left; reflexivity|]. split; [lia|]. intros d Hd. inversion Hd.
  - destruct (createdAt_seconds first <? createdAt_seconds x) eqn:Hlt;
      [apply Z.ltb_lt in Hlt; destruct (IH x) as (Hin & Hge & Hall)
      |apply Z.ltb_ge in Hlt; destruct (IH first) as (Hin & Hge & Hall)].
    + split; [right; destruct Hin as [->|Hin];
                [apply list_elem_of_here|apply list_elem_of_further, Hin]|].
      split; [lia|]. intros d [->|Hd]%elem_of_cons; [exact Hge|apply Hall, Hd].
    + split; [destruct Hin as [->|Hin];
                [left; reflexivity|right; apply list_elem_of_further, Hin]|].
      split; [exact Hge|]. intros d [->|Hd]%elem_of_cons; [lia|apply Hall, Hd].
Qed.

(** X11. [getActiveTransaction] reads the store without changing it and
    returns nothing exactly when the holder has no in-progress Session;
    otherwise it returns, with its identifier, a stored in-progress Session
    of the holder that no other in-progress Session of the holder is newer
    than (by the seconds of [createdAt]). *)
Theorem getActiveTransaction_latest (clk : nat -> Z) (rfid : string) (w : World) :
  exists res,
    run clk (getActiveTransaction rfid) w = (inr res, w) /\
    match res with
    | None => ~ has_active_session rfid w
    | Some (id, t) =>
        transactions w !! id = Some t /\
        Transaction.rfid t = rfid /\ Transaction.status t = InProgress /\
        forall id' t',
          transactions w !! id' = Some t' ->
          Transaction.rfid t' = rfid -> Transaction.status t' = InProgress ->
          seconds (Transaction.createdAt t') <= seconds (Transaction.createdAt t)
    end.
Proof.
  unfold getActiveTransaction. rewrite run_rethrow. run_step.
  pose proof (elem_of_query_active rfid (transactions w)) as Hq.
  pose proof (query_active_nil rfid (transactions w)) as Hnil.
  destruct (query_active rfid (transactions w)) as [|first docs] eqn:Hdocs;
    cbn [run bind].
  - exists None. split; [reflexivity|]. rewrite has_active_session_iff.
    intros Hne. apply Hne. apply Hnil. reflexivity.
  - eexists. split; [reflexivity|].
    destruct (latest_doc_spec (first :: docs) first) as (Hin & _ & Hall).
    cbv zeta in Hin, Hall.
    set (latest := fold_left _ (first :: docs) first) in *.
    assert (Hmem : latest ∈ first :: docs)
      by (destruct Hin as [->|Hin]; [apply list_elem_of_here|exact Hin]).
    apply Hq in Hmem as [Hl [Hr Hs]]. destruct latest as [id t]. cbn [fst snd] in *.
    split; [exact Hl|]. split; [exact Hr|]. split; [exact Hs|].
    intros id' t' Hl' Hr' Hs'.
    apply (Hall (id', t')). apply Hq. split; [exact Hl'|split; assumption].
Qed.

(** ** History queries *)

Lemma elem_of_query_rfid r (txs : list Transaction.t) (d : TxId * Transaction.t) :
  d ∈ query_rfid r txs <-> txs !! fst d = Some (snd d) /\ Transaction.rfid (snd d) = r.
Proof.
  unfold query_rfid. rewrite list_elem_of_filter, elem_of_lookup_imap. split.
  - intros [Ha (i & t & -> & Hl)]. split; assumption.
  - intros [Hl Ha]. split; [exact Ha|]. exists (fst d), (snd d).
    split; [destruct d; reflexivity|exact Hl].
Qed.

Lemma query_rfid_snd_shift r (g : nat -> nat) (txs : list Transaction.t) :
  snd <$> filter (fun d : TxId * Transaction.t => Transaction.rfid (snd d) = r)
                 (imap (fun i t => (g i, t)) txs)
  = filter (fun t => Transaction.rfid t = r) txs.
Proof.
  revert g. induction txs as [|t txs IH]; intros g; [reflexivity|].
  rewrite imap_cons, !filter_cons. cbn [snd].
  destruct (decide (Transaction.rfid t = r)); rewrite ?fmap_cons; cbn [snd].
  - f_equal. exact (IH (g ∘ S)).
  - exact (IH (g ∘ S)).
Qed.

Lemma query_rfid_snd r w :
  snd <$> query_rfid r (transactions w) = sessions_of r w.
Proof. apply (query_rfid_snd_shift r id). Qed.

Lemma insert_newest_perm x l : insert_newest x l ≡ₚ x :: l.
Proof.
  induction l as [|y l IH]; cbn [insert_newest]; [reflexivity|].
  destruct (createdAt_seconds y <=? createdAt_seconds x); [reflexivity|].
  rewrite IH. apply Permutation_swap.
Qed.

Lemma sort_newest_first_perm l : sort_newest_first l ≡ₚ l.
Proof.
  induction l as [|x l IH]; [reflexivity|].
  unfold sort_newest_first in *. cbn [foldr].
  rewrite insert_newest_perm, IH. reflexivity.
Qed.

Lemma insert_newest_sorted x l :
  StronglySorted (fun a b => createdAt_seconds b <= createdAt_seconds a) l ->
  StronglySorted (fun a b => createdAt_seconds b <= createdAt_seconds a)
                 (insert_newest x l).
Proof.
  induction 1 as [|y l Hs IH Hall]; cbn [insert_newest].
  - repeat constructor.
  - destruct (createdAt_seconds y <=? createdAt_seconds x) eqn:Hle;
      [apply Z.leb_le in Hle|apply Z.leb_gt in Hle].
    + constructor; [constructor; assumption|].
      constructor; [exact Hle|].
      eapply Forall_impl; [exact Hall|]. cbn. intros z Hz. lia.
    + constructor; [exact IH|].
      rewrite insert_newest_perm. constructor; [lia|exact Hall].
Qed.

Lemma sort_newest_first_sorted l :
  StronglySorted (fun a b => createdAt_seconds b <= createdAt_seconds a)
                 (sort_newest_first l).
Proof.
  induction l as [|x l IH]; [constructor|].
  unfold sort_newest_first in *. cbn [foldr]. apply insert_newest_sorted, IH.
Qed.

Lemma filter_insert_newest k x l :
  filter (fun d => createdAt_seconds d = k) (insert_newest x l)
  = filter (fun d => createdAt_seconds d = k) (x :: l).
Proof.
  induction l as [|y l IH]; cbn [insert_newest]; [reflexivity|].
  destruct (createdAt_seconds y <=? createdAt_seconds x) eqn:Hle; [reflexivity|].
  apply Z.leb_gt in Hle. rewrite (filter_cons _ y), IH, !filter_cons.
  destruct (decide (createdAt_seconds x = k)) as [Hx|Hx]; [|reflexivity].
  destruct (decide (createdAt_seconds y = k)); [lia|reflexivity].
Qed.

(** The sort is stable: the Sessions created in the same second keep the
    order of the snapshot. *)
Lemma sort_newest_first_stable k l :
  filter (fun d => createdAt_seconds d = k) (sort_newest_first l)
  = filter (fun d => createdAt_seconds d = k) l.
Proof.
  induction l as [|x l IH]; [reflexivity|].
  unfold sort_newest_first in *. cbn [foldr].
  rewrite filter_insert_newest, !filter_cons, IH. reflexivity.
Qed.

Lemma getStudentTransactions_length rfid limitCount w :
  0 <= default 50 limitCount ->
  length (getStudentTransactions rfid limitCount w)
  = Nat.min (Z.to_nat (default 50 limitCount)) (length (sessions_of rfid w)).
Proof.
  intros Hn. unfold getStudentTransactions, slice0.
  replace (0 <=? default 50 limitCount) with true by (symmetry; apply Z.leb_le, Hn).
  rewrite length_take. f_equal. rewrite sort_newest_first_perm.
  rewrite <- query_rfid_snd, length_fmap. reflexivity.
Qed.

(** X12. [getStudentTransactions] with a limit [n >= 0] (50 when left out)
    returns Sessions that are stored under the identifier they are returned
    with and belong to the holder, newest first, as many as the holder has
    but at most [n]; a Session of the holder that is not returned is not
    newer than any that is. *)
Theorem getStudentTransactions_newest (rfid : string) (limitCount : option Z)
    (w : World) :
  0 <= default 50 limitCount ->
  let result := getStudentTransactions rfid limitCount w in
  newest_first result /\
  length result
    = Nat.min (Z.to_nat (default 50 limitCount)) (length (sessions_of rfid w)) /\
  (forall id t, (id, t) ∈ result ->
     transactions w !! id = Some t /\ Transaction.rfid t = rfid) /\
  (forall id t id' t',
     (id, t) ∈ result ->
     transactions w !! id' = Some t' -> Transaction.rfid t' = rfid ->
     (id', t') ∉ result ->
     seconds (Transaction.createdAt t') <= seconds (Transaction.createdAt t)).
Proof.
  intros Hn result. subst result.
  pose proof (getStudentTransactions_length rfid limitCount w Hn) as Hlen.
  revert Hlen. unfold getStudentTransactions, slice0.
  replace (0 <=? default 50 limitCount) with true by (symmetry; apply Z.leb_le, Hn).
  intros Hlen.
  set (n := Z.to_nat (default 50 limitCount)) in *.
  set (s := sort_newest_first (query_rfid rfid (transactions w))).
  assert (Hsorted : StronglySorted
            (fun a b => createdAt_seconds b <= createdAt_seconds a)
            (take n s ++ drop n s))
    by (rewrite take_drop; apply sort_newest_first_sorted).
  assert (Hperm : s ≡ₚ query_rfid rfid (transactions w))
    by apply sort_newest_first_perm.
  split; [|split; [|split]].
  - apply StronglySorted_Sorted. eapply StronglySorted_app_1_l, Hsorted.
  - exact Hlen.
  - intros id t Hin. apply elem_of_take in Hin as (i & Hi & _).
    apply list_elem_of_lookup_2 in Hi. rewrite Hperm in Hi.
    apply elem_of_query_rfid in Hi. exact Hi.
  - intros id t id' t' Hin Hl Hr Hnot.
    assert (Hs' : (id', t') ∈ s)
      by (rewrite Hperm; apply elem_of_query_rfid; split; assumption).
    rewrite <- (take_drop n s) in Hs'. apply elem_of_app in Hs' as [Hs'|Hs'];
      [contradiction|].
    apply (StronglySorted_app_1_elem_of _ _ _ _ _ Hsorted Hin Hs').
Qed.

(** X13. When the limit is not below the number of the holder's Sessions,
    [getStudentTransactions] returns every Session of the holder exactly
    once: the result is a rearrangement of the matching documents, and one
    in which the Sessions created in the same second keep their order. *)
Theorem getStudentTransactions_complete (rfid : string) (limitCount : option Z)
    (w : World) :
  Z.of_nat (length (sessions_of rfid w)) <= default 50 limitCount ->
  let result := getStudentTransactions rfid limitCount w in
  result ≡ₚ query_rfid rfid (transactions w) /\
  snd <$> result ≡ₚ sessions_of rfid w /\
  forall k,
    filter (fun d => createdAt_seconds d = k) result
    = filter (fun d => createdAt_seconds d = k) (query_rfid rfid (transactions w)).
Proof.
  intros Hn result. subst result. unfold getStudentTransactions, slice0.
  replace (0 <=? default 50 limitCount) with true by (symmetry; apply Z.leb_le; lia).
  rewrite take_ge.
  - split; [apply sort_newest_first_perm|]. split.
    + rewrite sort_newest_first_perm. rewrite query_rfid_snd. reflexivity.
    + intros k. apply sort_newest_first_stable.
  - rewrite sort_newest_first_perm, <- (length_fmap snd), query_rfid_snd. lia.
Qed.

(** ** Statistics *)

Lemma add_duration_truthy (a : Z) (x : option Z) :
  (if truthy_number x then a + or0 x else a) = a + or0 x.
Proof.
  destruct x as [n|]; cbn; [|lia].
  destruct (n =? 0) eqn:Hn; cbn; [apply Z.eqb_eq in Hn; lia|reflexivity].
Qed.

Lemma fold_count_doc (docs : list (TxId * Transaction.t)) (c : Counters) :
  fold_left count_doc docs c =
  mkCounters
    (c_totalSessions c + Z.of_nat (length (snd <$> docs)))
    (c_totalPointsUsed c + sum_over Transaction.pointsUsed (snd <$> docs))
    (c_totalDuration c
     + sum_over (fun t => or0 (Transaction.duration t)) (snd <$> docs))
    (c_completedSessions c
     + Z.of_nat (length (filter (fun t => Transaction.status t = Completed)
                                (snd <$> docs))))
    (c_cancelledSessions c
     + Z.of_nat (length (filter (fun t => Transaction.status t = Cancelled)
                                (snd <$> docs)))).
Proof.
  revert c. induction docs as [|d docs IH]; intros c.
  - destruct c. cbn. f_equal; lia.
  - cbn [fold_left]. rewrite IH. unfold count_doc.
    cbn [c_totalSessions c_totalPointsUsed c_totalDuration c_completedSessions
         c_cancelledSessions].
    rewrite add_duration_truthy, fmap_cons, !filter_cons.
    cbn [length sum_over foldr].
    fold (sum_over Transaction.pointsUsed (snd <$> docs)).
    fold (sum_over (fun t => or0 (Transaction.duration t)) (snd <$> docs)).
    destruct (decide (Transaction.status (snd d) = Completed)) as [Hc|Hc].
    + rewrite (decide_False (P := Transaction.status (snd d) = Cancelled)) by congruence.
      cbn [length]. f_equal; lia.
    + destruct (decide (Transaction.status (snd d) = Cancelled));
        cbn [length]; f_equal; lia.
Qed.

Lemma sessions_partition rfid w :
  length (sessions_of rfid w)
  = (length (filter (fun t => Transaction.status t = Completed) (sessions_of rfid w))
     + length (filter (fun t => Transaction.status t = Cancelled) (sessions_of rfid w))
     + length (active_sessions rfid w))%nat.
Proof.
  unfold sessions_of, active_sessions.
  induction (transactions w) as [|t txs IH]; [reflexivity|].
  rewrite !(filter_cons _ t).
  destruct (decide (Transaction.rfid t = rfid)) as [Hr|Hr].
  - rewrite !(filter_cons _ t).
    destruct (decide (Transaction.status t = Completed)) as [Hc|Hc];
      destruct (decide (Transaction.status t = Cancelled)) as [Hx|Hx];
      destruct (decide (is_active rfid t)) as [Ha|Ha];
      cbn [length]; rewrite IH; try lia;
      exfalso; unfold is_active in *; destruct (Transaction.status t);
      intuition congruence.
  - rewrite decide_False by (intros [H _]; exact (Hr H)). exact IH.
Qed.

Lemma getStudentStats_counters rfid w :
  fold_left count_doc (query_rfid rfid (transactions w)) (mkCounters 0 0 0 0 0)
  = mkCounters
      (Z.of_nat (length (sessions_of rfid w)))
      (sum_over Transaction.pointsUsed (sessions_of rfid w))
      (sum_over (fun t => or0 (Transaction.duration t)) (sessions_of rfid w))
      (Z.of_nat (length (filter (fun t => Transaction.status t = Completed)
                                (sessions_of rfid w))))
      (Z.of_nat (length (filter (fun t => Transaction.status t = Cancelled)
                                (sessions_of rfid w)))).
Proof. rewrite fold_count_doc, query_rfid_snd. reflexivity. Qed.

Lemma getStudentStats_totalSessions rfid w :
  Stats.totalSessions (getStudentStats rfid w)
  = Z.of_nat (length (sessions_of rfid w)).
Proof. unfold getStudentStats. rewrite getStudentStats_counters. reflexivity. Qed.

(** X14. [getStudentStats] counts the Sessions of the holder and of no one
    else: [totalSessions] is their number, [completedSessions] and
    [cancelledSessions] the numbers of those with that status, the rest
    being the in-progress ones; [totalPointsUsed] is the sum of their points
    reserved and [totalDuration] the sum of the durations of those that
    have one. *)
Theorem getStudentStats_counts (rfid : string) (w : World) :
  let s := getStudentStats rfid w in
  let mine := sessions_of rfid w in
  Stats.totalSessions s = Z.of_nat (length mine) /\
  Stats.completedSessions s
    = Z.of_nat (length (filter (fun t => Transaction.status t = Completed) mine)) /\
  Stats.cancelledSessions s
    = Z.of_nat (length (filter (fun t => Transaction.status t = Cancelled) mine)) /\
  Stats.totalSessions s
    = Stats.completedSessions s + Stats.cancelledSessions s
      + Z.of_nat (length (active_sessions rfid w)) /\
  Stats.totalPointsUsed s = sum_over Transaction.pointsUsed mine /\
  Stats.totalDuration s = sum_over (fun t => or0 (Transaction.duration t)) mine.
Proof.
  intros s mine. subst s mine. unfold getStudentStats.
  rewrite getStudentStats_counters. unfold stats_of.
  cbn [Stats.totalSessions Stats.completedSessions Stats.cancelledSessions
       Stats.totalPointsUsed Stats.totalDuration c_totalSessions
       c_totalPointsUsed c_totalDuration c_completedSessions c_cancelledSessions].
  repeat split; try reflexivity.
  rewrite (sessions_partition rfid w) at 1. lia.
Qed.

Lemma Math_round_div_nearest a n :
  0 < n ->
  2 * a - n < 2 * n * Math_round_div a n <= 2 * a + n.
Proof.
  intros Hn. unfold Math_round_div.
  pose proof (Z.div_mod (2 * a + n) (2 * n) ltac:(lia)).
  pose proof (Z.mod_pos_bound (2 * a + n) (2 * n) ltac:(lia)). lia.
Qed.

(** X15. The averages of [getStudentStats] never divide by zero and are
    rounded to the nearest integer: for a holder without Sessions every
    figure is 0; otherwise each average is within one half of the exact
    quotient of the total by the number of Sessions, a half rounding up. *)
Theorem getStudentStats_averages (rfid : string) (w : World) :
  let s := getStudentStats rfid w in
  let n := Stats.totalSessions s in
  (sessions_of rfid w = [] -> s = Stats.mk 0 0 0 0 0 0 0) /\
  (sessions_of rfid w <> [] ->
     0 < n /\
     2 * Stats.totalPointsUsed s - n
       < 2 * n * Stats.averagePointsPerSession s <= 2 * Stats.totalPointsUsed s + n /\
     2 * Stats.totalDuration s - n
       < 2 * n * Stats.averageDuration s <= 2 * Stats.totalDuration s + n).
Proof.
  intros s n. subst s n. unfold getStudentStats.
  rewrite getStudentStats_counters. split.
  - intros ->. reflexivity.
  - intros Hne. unfold stats_of.
    cbn [Stats.totalSessions Stats.totalPointsUsed Stats.totalDuration
         Stats.averagePointsPerSession Stats.averageDuration c_totalSessions
         c_totalPointsUsed c_totalDuration].
    assert (Hpos : 0 < Z.of_nat (length (sessions_of rfid w)))
      by (destruct (sessions_of rfid w); [contradiction|cbn [length]; lia]).
    replace (0 <? Z.of_nat (length (sessions_of rfid w))) with true
      by (symmetry; apply Z.ltb_lt, Hpos).
    split; [exact Hpos|]. split; apply Math_round_div_nearest, Hpos.
Qed.

(** X16. The history endpoint takes the holder from the URL and, when the
    URL has none, from the login session; without either it answers 401.
    Its list is capped at 50 Sessions while its statistics count them all:
    the list has [min(50, totalSessions)] entries. *)
Theorem history_list_and_stats (params_rfid session_rfid : option string)
    (w : World) :
  match getStudentTransactionHistory params_rfid session_rfid w with
  | reply_error status _ =>
      status = 401 /\
      truthy_string params_rfid = false /\ truthy_string session_rfid = false
  | reply_json (transactions, stats) =>
      exists rfid,
        (if truthy_string params_rfid then params_rfid else session_rfid)
          = Some rfid /\
        rfid <> "" /\
        transactions = getStudentTransactions rfid None w /\
        stats = getStudentStats rfid w /\
        Z.of_nat (length transactions) = Z.min 50 (Stats.totalSessions stats)
  end.
Proof.
  unfold getStudentTransactionHistory, rfid_of_request.
  assert (Hlen : forall rfid,
    Z.of_nat (length (getStudentTransactions rfid None w))
    = Z.min 50 (Stats.totalSessions (getStudentStats rfid w))).
  { intros rfid.
    rewrite (getStudentTransactions_length rfid None w ltac:(cbn; lia)).
    rewrite getStudentStats_totalSessions. cbn [default]. lia. }
  assert (Htruthy : forall x : option string,
    truthy_string x = true -> exists r, x = Some r /\ r <> "").
  { intros [r|] Hx; [|discriminate]. exists r. split; [reflexivity|].
    cbn in Hx. apply negb_true_iff, String.eqb_neq in Hx. exact Hx. }
  destruct (truthy_string params_rfid) eqn:Hp.
  - destruct (Htruthy _ Hp) as (r & -> & Hr). exists r. repeat split; auto.
  - destruct (truthy_string session_rfid) eqn:Hs.
    + destruct (Htruthy _ Hs) as (r & -> & Hr). exists r. repeat split; auto.
    + repeat split.
Qed.

(** ** More on the relays *)

Section MoreRelays.
Import Gpio.

(** X17. A socket number other than 1 and 2 is refused by both switches
    with "Invalid socket number" before anything is touched: no handle is
    created, nothing is written. *)
Theorem invalid_socket_refused (n : Z) (st : State) :
  n <> 1 -> n <> 2 ->
  turnOnSocket n st = (inl (Invalid_socket_number n), st) /\
  turnOffSocket n st = (inl (Invalid_socket_number n), st).
Proof.
  intros H1 H2. unfold turnOnSocket, turnOffSocket, lineMap.
  apply Z.eqb_neq in H1, H2. rewrite H1, H2. split; reflexivity.
Qed.

Lemma relay_on_switch n p v st m :
  relay_on m (write_instance n v (ensure_instance n p st))
  = if decide (n = m) then v =? 1 else relay_on m st.
Proof.
  unfold relay_on. rewrite lookup_switch.
  destruct (decide (n = m)); reflexivity.
Qed.

(** X18. The last switch of a socket wins and the sockets are independent:
    for a valid socket number, off after on leaves the handle of the socket
    in the registry with value 0 and on after off leaves it with value 1,
    and in both orders the second switch goes through the handle that the
    first one found or constructed, without constructing another. Switching
    a socket leaves the handle of every other socket as it was, and
    switches of two different sockets leave the same registry in either
    order. *)
Theorem switches_compose (n gpioNumber : Z) (st : State) :
  lineMap n = Some gpioNumber ->
  let handle := default (new_MockGpio gpioNumber "out") (gpioInstances st !! n) in
  let on_off := snd (turnOffSocket n (snd (turnOnSocket n st))) in
  let off_on := snd (turnOnSocket n (snd (turnOffSocket n st))) in
  (gpioInstances on_off !! n = Some (writeSync 0 handle) /\
   value (writeSync 0 handle) = 0 /\ relay_on n on_off = false) /\
  (gpioInstances off_on !! n = Some (writeSync 1 handle) /\
   value (writeSync 1 handle) = 1 /\ relay_on n off_on = true) /\
  (handles_created gpioNumber on_off
     = handles_created gpioNumber (snd (turnOnSocket n st)) /\
   handles_created gpioNumber off_on
     = handles_created gpioNumber (snd (turnOffSocket n st)) /\
   driver_log on_off
     = driver_log (snd (turnOnSocket n st)) ++ [call_writeSync (pin handle) 0] /\
   driver_log off_on
     = driver_log (snd (turnOffSocket n st)) ++ [call_writeSync (pin handle) 1]) /\
  (forall m, m <> n ->
     gpioInstances (snd (turnOnSocket n st)) !! m = gpioInstances st !! m /\
     gpioInstances (snd (turnOffSocket n st)) !! m = gpioInstances st !! m /\
     relay_on m (snd (turnOnSocket n st)) = relay_on m st /\
     relay_on m (snd (turnOffSocket n st)) = relay_on m st) /\
  (forall m, m <> n ->
     gpioInstances (snd (turnOnSocket n (snd (turnOffSocket m st))))
     = gpioInstances (snd (turnOffSocket m (snd (turnOnSocket n st))))).
Proof.
  intros Hn handle on_off off_on. subst handle on_off off_on.
  unfold turnOnSocket, turnOffSocket. rewrite !Hn. cbn [snd].
  assert (Hsome : forall v,
    gpioInstances (write_instance n v (ensure_instance n gpioNumber st)) !! n <> None).
  { intros v. rewrite lookup_switch, decide_True by reflexivity. discriminate. }
  assert (Hlog : forall v v',
    driver_log (write_instance n v' (ensure_instance n gpioNumber
                  (write_instance n v (ensure_instance n gpioNumber st))))
    = driver_log (write_instance n v (ensure_instance n gpioNumber st))
      ++ [call_writeSync
            (pin (default (new_MockGpio gpioNumber "out") (gpioInstances st !! n)))
            v']).
  { intros v v'. rewrite (driver_log_switch n gpioNumber v' (write_instance n v _)).
    rewrite decide_False by apply Hsome.
    rewrite lookup_switch, decide_True by reflexivity. reflexivity. }
  assert (Hcount : forall v v',
    handles_created gpioNumber
      (write_instance n v' (ensure_instance n gpioNumber
         (write_instance n v (ensure_instance n gpioNumber st))))
    = handles_created gpioNumber (write_instance n v (ensure_instance n gpioNumber st))).
  { intros v v'. rewrite (handles_created_switch n gpioNumber v' (write_instance n v _)).
    rewrite decide_False by apply Hsome. lia. }
  split; [|split; [|split; [|split]]].
  - rewrite relay_on_switch, !lookup_switch, !decide_True by reflexivity.
    repeat split.
  - rewrite relay_on_switch, !lookup_switch, !decide_True by reflexivity.
    repeat split.
  - split; [apply Hcount|]. split; [apply Hcount|]. split; apply Hlog.
  - intros m Hm. rewrite !relay_on_switch, !lookup_switch, !decide_False by congruence.
    repeat split.
  - intros m Hm. destruct (lineMap m) as [pm|] eqn:Hlm; cbn [snd]; [|reflexivity].
    apply map_eq. intros k. rewrite !lookup_switch.
    repeat case_decide; subst; try congruence; reflexivity.
Qed.

Lemma registry_switch n p v st :
  lineMap n = Some p ->
  registry_on_lineMap st ->
  registry_on_lineMap (write_instance n v (ensure_instance n p st)).
Proof.
  intros Hn Hinv m g. rewrite lookup_switch.
  destruct (decide (n = m)) as [<-|Hne]; [|apply Hinv].
  intros [= <-]. destruct (gpioInstances st !! n) as [g0|] eqn:Hg0; cbn.
  - apply (Hinv n g0 Hg0).
  - split; [exact Hn|reflexivity].
Qed.

(** X19. Every handle sits on the pin that [lineMap] gives its socket, as
    an output: this holds for the empty registry and is kept by
    [turnOnSocket], [turnOffSocket] (valid number or not) and the SIGINT
    hook, so socket 1 is only ever driven through GPIO 73 and socket 2
    through GPIO 70. *)
Theorem registry_stays_on_lineMap (n : Z) (st : State) :
  registry_on_lineMap st ->
  registry_on_lineMap (snd (turnOnSocket n st)) /\
  registry_on_lineMap (snd (turnOffSocket n st)) /\
  registry_on_lineMap (on_SIGINT st) /\
  registry_on_lineMap (mkState ∅ []).
Proof.
  intros Hinv. unfold turnOnSocket, turnOffSocket.
  destruct (lineMap n) as [p|] eqn:Hn; cbn [snd].
  - split; [apply registry_switch; assumption|].
    split; [apply registry_switch; assumption|]. split.
    + intros m g. unfold on_SIGINT. cbn [gpioInstances]. rewrite lookup_fmap.
      destruct (gpioInstances st !! m) as [g0|] eqn:Hg0; [|discriminate].
      intros [= <-]. apply (Hinv m g0 Hg0).
    + intros m g Hg. cbn in Hg. rewrite lookup_empty in Hg. discriminate.
  - split; [exact Hinv|]. split; [exact Hinv|]. split.
    + intros m g. unfold on_SIGINT. cbn [gpioInstances]. rewrite lookup_fmap.
      destruct (gpioInstances st !! m) as [g0|] eqn:Hg0; [|discriminate].
      intros [= <-]. apply (Hinv m g0 Hg0).
    + intros m g Hg. cbn in Hg. rewrite lookup_empty in Hg. discriminate.
Qed.

(** X20. The SIGINT hook makes exactly one [writeSync(0)] and one
    [unexport] per handle of the registry and constructs no handle; the
    registry keeps the same sockets. *)
Theorem SIGINT_cleans_each_handle_once (st : State) :
  length (driver_log (on_SIGINT st))
    = (length (driver_log st) + 2 * size (gpioInstances st))%nat /\
  (forall p, handles_created p (on_SIGINT st) = handles_created p st) /\
  dom (gpioInstances (on_SIGINT st)) = dom (gpioInstances st) /\
  (forall n g, gpioInstances st !! n = Some g ->
     In (call_writeSync (pin g) 0) (driver_log (on_SIGINT st)) /\
     In (call_unexport (pin g)) (driver_log (on_SIGINT st))).
Proof.
  assert (Hlen : forall l : list (Z * MockGpio),
    length (flat_map (fun e => [call_writeSync (pin (snd e)) 0;
                                call_unexport (pin (snd e))]) l)
    = (2 * length l)%nat)
    by (induction l as [|e l IH]; cbn [flat_map app length]; lia).
  assert (Hnew : forall p (l : list (Z * MockGpio)),
    filter (fun c => c = call_new p)
      (flat_map (fun e => [call_writeSync (pin (snd e)) 0;
                           call_unexport (pin (snd e))]) l) = []).
  { intros p l. induction l as [|e l IH]; [reflexivity|].
    cbn [flat_map app]. rewrite filter_cons_False by discriminate.
    rewrite filter_cons_False by discriminate. exact IH. }
  unfold on_SIGINT, handles_created. cbn [driver_log gpioInstances].
  split; [rewrite length_app, Hlen, length_entries; reflexivity|].
  split; [intros p; rewrite filter_app, Hnew, app_nil_r; reflexivity|].
  split; [apply dom_fmap_L|].
  intros n g Hg.
  assert (Hin : In (n, g) (entries (gpioInstances st)))
    by (apply elem_of_entries; exact Hg).
  split; apply in_or_app; right; apply in_flat_map; exists (n, g);
    (split; [exact Hin|]); [left|right; left]; reflexivity.
Qed.

#[local] Instance key_le_total : Total key_le.
Proof. intros a b. unfold key_le. lia. Qed.

(** The hook cleans the sockets up in the order of their numbers. *)
Lemma entries_ascending (m : gmap Z MockGpio) :
  Sorted key_le (entries m).
Proof. unfold entries. apply Sorted_merge_sort, _. Qed.

Example SIGINT_order :
  driver_log (on_SIGINT (snd (turnOnSocket 1 (snd (turnOnSocket 2 (mkState ∅ []))))))
  = [call_new 70; call_writeSync 70 1; call_new 73; call_writeSync 73 1;
     call_writeSync 73 0; call_unexport 73; call_writeSync 70 0; call_unexport 70].
Proof. vm_compute. reflexivity. Qed.

End MoreRelays.

(** ** Setting a balance and reading it back *)

(** X21. [addPoints] does not add: it replaces the balance of the account
    by the number sent, whatever the balance was and whatever the sign of
    the number, and touches nothing else; [getStudentByRFID] then returns
    the account with that balance. For an RFID without account it answers
    an error 500 and creates nothing, and [getStudentByRFID] answers 404. *)
Theorem addPoints_overwrites (clk : nat -> Z) (body : PointsBody.t) (w : World) :
  let rfid := PointsBody.rfid body in
  let '(res, w') := run clk (addPoints body) w in
  match students w !! rfid with
  | Some sd =>
      res = inr (reply_json tt) /\
      balance w' rfid = PointsBody.points body /\
      transactions w' = transactions w /\
      (forall other, other <> rfid -> students w' !! other = students w !! other) /\
      run clk (getStudentByRFID rfid) w'
        = (inr (reply_json (set_points (PointsBody.points body) sd)), w')
  | None =>
      (exists message, res = inr (reply_error 500 message)) /\
      w' = w /\
      run clk (getStudentByRFID rfid) w
        = (inr (reply_error 404 "Student not found"), w)
  end.
Proof.
  intros rfid. subst rfid. unfold addPoints, getStudentByRFID.
  rewrite !run_catch. run_step.
  destruct (students w !! PointsBody.rfid body) as [sd|] eqn:Hsd; run_step.
  - split; [reflexivity|]. split.
    { unfold balance. cbn [students]. rewrite lookup_insert_eq. reflexivity. }
    split; [reflexivity|]. split.
    { intros other Hne. apply lookup_insert_ne. congruence. }
    rewrite run_catch. run_step. rewrite lookup_insert_eq. reflexivity.
  - split; [eexists; reflexivity|]. split; reflexivity.
Qed.

(** ** The global history *)

Lemma elem_of_query_all (txs : list Transaction.t) (d : TxId * Transaction.t) :
  d ∈ query_all txs <-> txs !! fst d = Some (snd d).
Proof.
  unfold query_all. rewrite elem_of_lookup_imap. split.
  - intros (i & t & -> & Hl). exact Hl.
  - intros Hl. exists (fst d), (snd d). split; [destruct d; reflexivity|exact Hl].
Qed.

(** X22. [getAllTransactions] returns stored Sessions under their
    identifiers, newest first: the result is the beginning of the list of
    all Sessions sorted newest first (the Sessions created in the same
    second in the order of the collection), so what is left out is not
    newer than what is returned. With a limit [n >= 0] (100 when left out)
    it returns as many as there are but at most [n]; a negative limit, which
    the slice counts from the end, leaves out the last [-n] of the sorted
    list. *)
Theorem getAllTransactions_newest (limitCount : option Z) (w : World) :
  let n := default 100 limitCount in
  let result := getAllTransactions limitCount w in
  newest_first result /\
  (forall id t, (id, t) ∈ result -> transactions w !! id = Some t) /\
  length result
    = (if 0 <=? n then Nat.min (Z.to_nat n) (length (transactions w))
       else (length (transactions w) - Z.to_nat (- n))%nat) /\
  exists left_out,
    newest_first (result ++ left_out) /\
    result ++ left_out ≡ₚ query_all (transactions w) /\
    (forall k,
        filter (fun d => createdAt_seconds d = k) (result ++ left_out)
        = filter (fun d => createdAt_seconds d = k) (query_all (transactions w))) /\
    (forall d d', d ∈ result -> d' ∈ left_out ->
                  createdAt_seconds d' <= createdAt_seconds d).
Proof.
  intros n result. subst n result. unfold getAllTransactions, slice0.
  set (s := sort_newest_first (query_all (transactions w))).
  assert (Hperm : s ≡ₚ query_all (transactions w)) by apply sort_newest_first_perm.
  assert (Hlen : length s = length (transactions w))
    by (rewrite Hperm; apply length_imap).
  assert (Htake : forall k,
    newest_first (take k s) /\
    (forall id t, (id, t) ∈ take k s -> transactions w !! id = Some t) /\
    length (take k s) = Nat.min k (length (transactions w)) /\
    exists left_out,
      newest_first (take k s ++ left_out) /\
      take k s ++ left_out ≡ₚ query_all (transactions w) /\
      (forall key,
          filter (fun d => createdAt_seconds d = key) (take k s ++ left_out)
          = filter (fun d => createdAt_seconds d = key) (query_all (transactions w))) /\
      (forall d d', d ∈ take k s -> d' ∈ left_out ->
                    createdAt_seconds d' <= createdAt_seconds d)).
  { intros k.
    assert (Hsorted : StronglySorted
              (fun a b => createdAt_seconds b <= createdAt_seconds a)
              (take k s ++ drop k s))
      by (rewrite take_drop; apply sort_newest_first_sorted).
    split; [|split; [|split]].
    - apply StronglySorted_Sorted.
      apply (StronglySorted_app_1_l _ (take k s) (drop k s)), Hsorted.
    - intros id t Hin. apply elem_of_take in Hin as (i & Hi & _).
      apply list_elem_of_lookup_2 in Hi. rewrite Hperm in Hi.
      apply elem_of_query_all in Hi. exact Hi.
    - rewrite length_take, Hlen. reflexivity.
    - exists (drop k s). split; [apply StronglySorted_Sorted, Hsorted|].
      split; [rewrite take_drop; exact Hperm|].
      split; [intros key; rewrite take_drop; apply sort_newest_first_stable|].
      intros d d' Hd Hd'.
      apply (StronglySorted_app_1_elem_of _ _ _ _ _ Hsorted Hd Hd'). }
  destruct (0 <=? default 100 limitCount) eqn:Hn.
  - apply Htake.
  - destruct (Htake (length s - Z.to_nat (- (default 100 limitCount)%Z))%nat)
      as (H1 & H2 & H3 & H4).
    split; [exact H1|]. split; [exact H2|]. split; [|exact H4].
    rewrite H3, Hlen. lia.
Qed.

(** ** The further properties at concrete states *)

(** Alice's second start request is refused and writes nothing. *)
Lemma start_error_writes_nothing_witness :
  fst (run clk_250 (startChargingSession req_start10) w_leased) = inr Conflict /\
  transactions (snd (run clk_250 (startChargingSession req_start10) w_leased))
  = transactions w_leased.
Proof.
  assert (H : fst (run clk_250 (startChargingSession req_start10) w_leased)
              = inr Conflict) by (vm_compute; reflexivity).
  split; [exact H|].
  exact (proj2 (start_error_writes_nothing clk_250 req_start10 w_leased _ _ H)).
Defined.

(** Alice's first start request appends one Session. *)
Lemma start_success_effect_witness :
  exists t, transactions (snd (run clk_250 (startChargingSession req_start10) w_fresh))
            = transactions w_fresh ++ [t] /\
            Transaction.pointsUsed t = 10.
Proof.
  destruct (start_success_effect clk_250 req_start10 w_fresh 0%nat (Some 90) 1200)
    as (rfid & p & t & _ & Hp & _ & _ & _ & Happ & _ & Hused & _);
    [vm_compute; reflexivity|].
  injection Hp as <-. exists t. split; [exact Happ|exact Hused].
Defined.

Lemma stop_unknown_session_witness :
  run clk_250 (stopChargingSession (StopBody.mk (Some 7%nat) (Some "cancelled")))
    w_leased
  = (inr (json_error 500 "Transaction not found"), w_leased).
Proof.
  exact (proj1 (stop_unknown_session clk_250 w_leased 7%nat (Some "cancelled")
                  eq_refl)).
Defined.

Lemma stop_completed_keeps_accounts_witness :
  students (snd (run clk_250
                   (stopChargingSession (StopBody.mk (Some 0%nat) (Some "completed")))
                   w_leased))
  = students w_leased.
Proof.
  apply (stop_completed_keeps_accounts clk_250 w_leased
           (StopBody.mk (Some 0%nat) (Some "completed"))).
  cbn. discriminate.
Defined.

Lemma stop_finalizes_witness :
  transactions w_leased !! 0%nat = Some lease_of_alice /\
  exists t',
    transactions (snd (run clk_250
                         (stopChargingSession (StopBody.mk (Some 0%nat) None))
                         w_leased)) !! 0%nat = Some t' /\
    Transaction.status t' = Completed.
Proof.
  assert (Ht : transactions w_leased !! 0%nat = Some lease_of_alice)
    by (vm_compute; reflexivity).
  split; [exact Ht|].
  destruct (stop_finalizes clk_250 w_leased 0%nat lease_of_alice None Ht)
    as (t' & Hl & Hs & _).
  exists t'. split; [exact Hl|exact Hs].
Defined.

Lemma stop_without_account_witness :
  fst (run clk_125s (stopChargingSession (StopBody.mk (Some 0%nat) (Some "cancelled")))
         w_orphan)
  = inr (json_error 500 "Cannot read properties of undefined (reading 'points')").
Proof.
  pose proof (stop_without_account clk_125s w_orphan 0%nat lease_of_nobody
                (Some "cancelled") eq_refl eq_refl) as H.
  destruct (run clk_125s _ w_orphan) as [res w']. exact (proj1 H).
Defined.

Lemma balances_nonneg_fresh : balances_nonneg w_fresh.
Proof.
  intros rfid sd Hl. unfold w_fresh in Hl. cbn [students] in Hl.
  apply lookup_insert_Some in Hl as [[_ <-]|[_ Hl]]; [cbn; lia|].
  apply lookup_singleton_Some in Hl as [_ <-]. cbn. lia.
Defined.

Lemma requests_keep_balances_nonneg_witness :
  balances_nonneg w_fresh /\ balances_nonneg w_leased.
Proof.
  split; [exact balances_nonneg_fresh|].
  exact (requests_keep_balances_nonneg clk_250 (StartLease req_start10) w_fresh
           balances_nonneg_fresh).
Defined.

Lemma requests_keep_sessions_witness :
  exists t',
    transactions (snd (run clk_250 (handler (StartLease req_start5)) w_done)) !! 0%nat
      = Some t' /\
    Transaction.pointsUsed t' = 10 /\ terminal t'.
Proof.
  destruct (requests_keep_sessions clk_250 (StartLease req_start5) w_done 0%nat
              lease_completed) as (t' & Hl & Hsame & Hterm);
    [vm_compute; reflexivity|].
  exists t'. split; [exact Hl|]. split.
  - destruct Hsame as (_ & _ & _ & Hp & _). rewrite Hp. reflexivity.
  - apply Hterm. intros H. discriminate H.
Defined.

(** Alice starts a 10-point lease and cancels it one second later: it costs
    her one point. *)
Lemma start_then_cancel_witness :
  fst (run clk_250 (startChargingSession req_start10) w_fresh)
  = inr (json_started 0%nat (Some 90) 1200) /\
  balance (snd (run clk_250
                  (stopChargingSession (StopBody.mk (Some 0%nat) (Some "cancelled")))
                  w_leased)) "RF01"
  = balance w_fresh "RF01" - 1.
Proof.
  assert (Hok : fst (run clk_250 (startChargingSession
                       (start_body "RF01" 10 "Universal Charger" 1)) w_fresh)
                = inr (json_started 0%nat (Some 90) 1200))
    by (vm_compute; reflexivity).
  split; [exact Hok|].
  pose proof (start_then_cancel clk_250 w_fresh "RF01" 10 "Universal Charger"
                1 1 0%nat (Some 90) 1200 Hok) as H.
  cbv zeta in H.
  change (snd (run clk_250
                 (startChargingSession (start_body "RF01" 10 "Universal Charger" 1))
                 w_fresh)) with w_leased in H.
  destruct (run clk_250 _ w_leased) as [res w2].
  apply H.
  - lia.
  - vm_compute. reflexivity.
  - lia.
Defined.

Lemma getStudentTransactions_newest_witness :
  length (getStudentTransactions "RF01" None w_leased) = 1%nat.
Proof.
  destruct (getStudentTransactions_newest "RF01" None w_leased) as (_ & Hlen & _);
    [cbn; lia|].
  rewrite Hlen. vm_compute. reflexivity.
Defined.

Lemma getStudentTransactions_complete_witness :
  getStudentTransactions "RF01" (Some 5) w_leased
  ≡ₚ query_rfid "RF01" (transactions w_leased).
Proof.
  apply (getStudentTransactions_complete "RF01" (Some 5) w_leased).
  vm_compute. discriminate.
Defined.

Lemma invalid_socket_refused_witness :
  Gpio.turnOnSocket 3 relays_socket1_on
  = (inl (Gpio.Invalid_socket_number 3), relays_socket1_on).
Proof.
  apply (invalid_socket_refused 3 relays_socket1_on); discriminate.
Defined.

Lemma switches_compose_witness :
  Gpio.value <$> Gpio.gpioInstances
                   (snd (Gpio.turnOffSocket 1 relays_socket1_on)) !! 1 = Some 0 /\
  Gpio.relay_on 2 (snd (Gpio.turnOnSocket 1 (Gpio.mkState ∅ []))) = false.
Proof.
  destruct (switches_compose 1 73 (Gpio.mkState ∅ []) eq_refl)
    as ((Hoff & _) & _ & _ & Hother & _).
  split; [unfold relays_socket1_on; rewrite Hoff; reflexivity|].
  destruct (Hother 2) as (_ & _ & Hon & _); [discriminate|]. rewrite Hon. reflexivity.
Defined.

Lemma registry_empty : registry_on_lineMap (Gpio.mkState ∅ []).
Proof. intros n g Hg. cbn in Hg. rewrite lookup_empty in Hg. discriminate. Defined.

Lemma registry_stays_on_lineMap_witness :
  registry_on_lineMap relays_socket1_on.
Proof.
  exact (proj1 (registry_stays_on_lineMap 1 (Gpio.mkState ∅ []) registry_empty)).
Defined.
